(** * claon-admin-server: review service and center request models

    A shallow embedding of
    - [claon_admin/service/review.py]  (class [ReviewService]) and
    - [claon_admin/model/center.py]    (the pydantic request models),
    followed by the properties the specification states about them.

    Python values are modelled as follows.
    - Identifiers, contents and messages are opaque text: [string].
    - Text that a validator measures, indexes or iterates over is a
      sequence of Unicode code points: [PyStr.str].
    - [int] is [Z]; a [date] is its proleptic Gregorian ordinal.
    - A coroutine of the service is a function from the world (database
      rows and the log of repository calls) to an outcome and a new
      world. *)

From Stdlib Require Import String List ZArith NArith Bool Lia Ascii.
From Stdlib.Strings Require Import Byte.
Import ListNotations.

Local Open Scope string_scope.
Local Open Scope list_scope.

(* ===================================================================== *)
(** * Python text *)
(* ===================================================================== *)

Module PyStr.

(** A Python [str] is a sequence of code points; [len] counts them. *)
Definition codepoint := N.
Definition str := list codepoint.

(** Decoder for source literals, which this file holds as UTF-8. [need]
    is the number of continuation bytes still expected, [acc] the bits
    gathered so far. *)
Fixpoint utf8_decode (bs : list N) (need : nat) (acc : N) : str :=
  match bs with
  | [] => []
  | b :: rest =>
      match need with
      | O =>
          if (b <? 128)%N then b :: utf8_decode rest 0 0%N
          else if (b <? 224)%N then utf8_decode rest 1 (N.land b 31)
          else if (b <? 240)%N then utf8_decode rest 2 (N.land b 15)
          else utf8_decode rest 3 (N.land b 7)
      | S O => (acc * 64 + N.land b 63)%N :: utf8_decode rest 0 0%N
      | S n => utf8_decode rest n (acc * 64 + N.land b 63)%N
      end
  end.

(** [py "..."] is the Python string written between the quotes. *)
Definition py (s : string) : str :=
  utf8_decode (map Byte.to_N (list_byte_of_string s)) 0 0%N.

Fixpoint eqb (a b : str) : bool :=
  match a, b with
  | [], [] => true
  | x :: a', y :: b' => (x =? y)%N && eqb a' b'
  | _, _ => false
  end.

(** [value in [s1, s2, ...]] *)
Definition mem (value : str) (choices : list str) : bool :=
  existsb (eqb value) choices.

(** [len(value)] *)
Definition len (value : str) : Z := Z.of_nat (length value).

(** [value.startswith(prefix)] *)
Fixpoint startswith (value prefix : str) {struct prefix} : bool :=
  match prefix, value with
  | [], _ => true
  | p :: prefix', c :: value' => (c =? p)%N && startswith value' prefix'
  | _ :: _, [] => false
  end.

End PyStr.

(* ===================================================================== *)
(** * Errors: claon_admin/common/error/exception.py *)
(* ===================================================================== *)

Module Error.

(** The module exception.py is not among the sources. The codes and the
    classes below are the ones review.py imports and uses. *)

(** The error codes the review service passes to its exceptions. *)
Inductive ErrorCode :=
| DATA_DOES_NOT_EXIST
| NOT_ACCESSIBLE
| WRONG_DATE_RANGE
| ROW_ALREADY_EXIST.

(** The exception classes the review service imports and raises; each
    is built from a code and a message. *)
Inductive Exception :=
| NotFoundException (code : ErrorCode) (message : string)
| UnauthorizedException (code : ErrorCode) (message : string)
| BadRequestException (code : ErrorCode) (message : string).

Definition code_of (e : Exception) : ErrorCode :=
  match e with
  | NotFoundException c _ => c
  | UnauthorizedException c _ => c
  | BadRequestException c _ => c
  end.

(** Modelled from the spec: the module exception.py is not among the
    sources. The specification's vocabulary of error kinds is
    not-found, unauthorized and bad-request (section 7), and it also
    speaks of a conflict error (section 8). *)
Inductive ErrorKind :=
| NotFound
| Unauthorized
| BadRequest
| Conflict.

(** The kind of an exception is the kind its class is named after. *)
Definition kind_of (e : Exception) : ErrorKind :=
  match e with
  | NotFoundException _ _ => NotFound
  | UnauthorizedException _ _ => Unauthorized
  | BadRequestException _ _ => BadRequest
  end.

End Error.

(* ===================================================================== *)
(** * Rows and repositories: claon_admin/schema/center.py *)
(* ===================================================================== *)

Module Schema.

(** Modelled from the spec: the ORM classes are not among the sources.
    Section 3 gives Center an owner reference, Review an author, a
    center reference, a tag list and an optional answer reference, and
    ReviewAnswer a content and a review reference. Primary keys of
    answers and timestamps are left out: the service neither reads nor
    sets them. *)
Record Center := {
  center_id : string;
  center_owner_id : string;
  center_name : string
}.

Record ReviewTag := { word : string }.

Record Review := {
  review_id : string;
  review_user_id : string;
  review_center_id : string;
  tag : list ReviewTag;
  answer_id : option string
}.

Record ReviewAnswer := {
  content : string;
  review : Review
}.

(** Modelled from the spec: [Center.is_owner] is the ownership check of
    section 4, [center.owner_id == requester.id]. *)
Definition is_owner (c : Center) (user_id : string) : bool :=
  String.eqb (center_owner_id c) user_id.

(** [ReviewAnswer.update(content)] replaces the content of the entity. *)
Definition update (a : ReviewAnswer) (new_content : string) : ReviewAnswer :=
  {| content := new_content; review := review a |}.

(** The three tables the review service reaches. Tables are lists of
    rows: nothing in the model forbids two answers of one review, so
    that the one-answer invariant has content. *)
Record DB := {
  centers : list Center;
  reviews : list Review;
  answers : list ReviewAnswer
}.

(** Row selectors of the repository queries. *)
Definition center_has_id (id : string) (c : Center) : bool :=
  String.eqb (center_id c) id.

Definition review_has_id_and_center (id cid : string) (r : Review) : bool :=
  String.eqb (review_id r) id && String.eqb (review_center_id r) cid.

Definition review_in_center (cid : string) (r : Review) : bool :=
  String.eqb (review_center_id r) cid.

Definition answer_of_review (rid : string) (a : ReviewAnswer) : bool :=
  String.eqb (review_id (review a)) rid.

(** Replace, respectively drop, the first row a selector picks. That is
    the row [find] returns for the same selector, which is how the
    entity object handed back by a query is identified with its row. *)
Fixpoint replace_first {A} (p : A -> bool) (f : A -> A) (l : list A) : list A :=
  match l with
  | [] => []
  | x :: l' => if p x then f x :: l' else x :: replace_first p f l'
  end.

Fixpoint remove_first {A} (p : A -> bool) (l : list A) : list A :=
  match l with
  | [] => []
  | x :: l' => if p x then l' else x :: remove_first p l'
  end.

End Schema.

(* ===================================================================== *)
(** * Request-side types: claon_admin/model/{auth,enum,review}.py *)
(* ===================================================================== *)

Module Auth.

(** claon_admin/model/enum.py *)
Inductive Role := USER | LECTOR | CENTER_ADMIN.

Record RequestUser := { id : string; sns : string; role : Role }.

End Auth.

Module PyDate.

(** [datetime.date], held as its proleptic Gregorian ordinal. *)
Record date := { toordinal : Z }.

(** [(d2 - d1).days]: subtracting two dates gives a timedelta of whole
    days. *)
Definition days_between (d2 d1 : date) : Z := toordinal d2 - toordinal d1.

End PyDate.

Module Collections.

(** [collections.Counter] over a list: a dict from element to number of
    occurrences, keys in order of first occurrence. The dict is held as an
    association list because [items()] exposes that order. *)
Section Counter.
Context {K : Type} (K_eqb : K -> K -> bool).

Definition counter := list (K * nat).

(** [c[k] += 1] *)
Fixpoint incr (k : K) (c : counter) : counter :=
  match c with
  | [] => [(k, 1%nat)]
  | (k', n) :: c' =>
      if K_eqb k' k then (k', S n) :: c' else (k', n) :: incr k c'
  end.

(** [Counter(l)]: one pass over [l]. *)
Definition Counter (l : list K) : counter :=
  fold_left (fun c k => incr k c) l [].

(** [c[k]]; a Counter answers 0 for a key it does not hold. *)
Fixpoint get (c : counter) (k : K) : nat :=
  match c with
  | [] => 0%nat
  | (k', n) :: c' => if K_eqb k' k then n else get c' k
  end.

(** [c.items()] *)
Definition items (c : counter) : list (K * nat) := c.
End Counter.

End Collections.

Module ReviewModel.

Import Schema.

(** Modelled from the spec: claon_admin/model/review.py is not among the
    sources. A request carries the answer text; the response built from
    an answer row carries its content and the id of its review (the one
    field the success test reads). *)
Record ReviewAnswerRequestDto := { answer_content : string }.

Record ReviewAnswerResponseDto := {
  resp_content : string;
  resp_review_id : string
}.

Definition ReviewAnswerResponseDto_from_entity (entity : ReviewAnswer)
  : ReviewAnswerResponseDto :=
  {| resp_content := content entity;
     resp_review_id := review_id (review entity) |}.

Record ReviewTagDto := { tag_word : string; count : nat }.

(** Modelled from the spec: the summary DTO keeps what [from_entity] is
    handed: the center, the Counter of answered flags and the tag
    tallies. *)
Record ReviewSummaryResponseDto := {
  summary_center : Center;
  review_by_answer : Collections.counter (K := bool);
  review_count_by_tag : list ReviewTagDto
}.

Definition ReviewSummaryResponseDto_from_entity
    (center : Center) (by_answer : Collections.counter (K := bool))
    (tags : list ReviewTagDto) : ReviewSummaryResponseDto :=
  {| summary_center := center;
     review_by_answer := by_answer;
     review_count_by_tag := tags |}.

(** [fastapi_pagination.Params] *)
Record Params := { page : Z; size : Z }.

End ReviewModel.

(* ===================================================================== *)
(** * The world of a request: rows and the log of repository calls *)
(* ===================================================================== *)

Module Run.

Import Schema Error ReviewModel PyDate.

(** One entry per call that reaches a repository, in the order made.
    [ReviewAnswer_update] stands for the mutation of a loaded entity,
    which the session writes back. *)
Inductive RepoCall :=
| Center_find_by_id (center_id : string)
| Review_find_reviews_by_center
    (params : Params) (center_id : string) (start end_ : date)
    (tag : option string) (is_answered : option bool)
| Review_find_by_id_and_center_id (review_id center_id : string)
| Review_find_all_by_center (center_id : string)
| ReviewAnswer_find_by_review_id (review_id : string)
| ReviewAnswer_save (row : ReviewAnswer)
| ReviewAnswer_update (row : ReviewAnswer) (new_content : string)
| ReviewAnswer_delete (row : ReviewAnswer).

Definition is_write (c : RepoCall) : bool :=
  match c with
  | ReviewAnswer_save _ | ReviewAnswer_update _ _ | ReviewAnswer_delete _ => true
  | _ => false
  end.

Record World := { db : DB; calls : list RepoCall }.

(** What a coroutine ends with: a returned value or a raised exception. *)
Inductive Outcome (A : Type) :=
| Return (a : A)
| Raise (e : Exception).
Arguments Return {A} a.
Arguments Raise {A} e.

(** An awaited service or repository coroutine. *)
Definition M (A : Type) : Type := World -> Outcome A * World.

Definition ret {A} (a : A) : M A := fun w => (Return a, w).

Definition raise {A} (e : Exception) : M A := fun w => (Raise e, w).

Definition bind {A B} (m : M A) (k : A -> M B) : M B :=
  fun w =>
    match m w with
    | (Return a, w') => k a w'
    | (Raise e, w') => (Raise e, w')
    end.

(** Record a repository call. *)
Definition log (c : RepoCall) : M unit :=
  fun w => (Return tt, {| db := db w; calls := calls w ++ [c] |}).

(** Read the rows, respectively replace the answer table. *)
Definition rows : M DB := fun w => (Return (db w), w).

Definition set_answers (l : list ReviewAnswer) : M unit :=
  fun w =>
    (Return tt,
     {| db := {| centers := centers (db w);
                 reviews := reviews (db w);
                 answers := l |};
        calls := calls w |}).

(** [if x is None: raise e], after which [x] is known to be a row. *)
Definition or_raise {A} (x : option A) (e : Exception) : M A :=
  match x with
  | None => raise e
  | Some a => ret a
  end.

(** [if cond: raise e] *)
Definition raise_if (cond : bool) (e : Exception) : M unit :=
  if cond then raise e else ret tt.

End Run.

Declare Scope service_scope.
Delimit Scope service_scope with service.

Notation "x <- c ;; k" := (Run.bind c (fun x => k))
  (at level 100, c at next level, right associativity) : service_scope.
Notation "c ;; k" := (Run.bind c (fun _ => k))
  (at level 100, right associativity) : service_scope.

(* ===================================================================== *)
(** * Repositories *)
(* ===================================================================== *)

(** The repository classes of claon_admin/schema/center.py are not among
    the sources. A query returns the first row its name selects, or None;
    [save] adds the row and hands it back; [delete] drops the row it is
    given. Every call is logged. *)

Module CenterRepository.
Import Schema Run.
Local Open Scope service_scope.

(** Modelled from the spec: [CenterRepository.find_by_id] is missing; the
    center with this id, or None. *)
Definition find_by_id (center_id : string) : M (option Center) :=
  log (Center_find_by_id center_id) ;;
  d <- rows ;;
  ret (find (center_has_id center_id) (centers d)).
End CenterRepository.

Module ReviewAnswerRepository.
Import Schema Run.
Local Open Scope service_scope.

(** Modelled from the spec: [ReviewAnswerRepository.find_by_review_id] is
    missing; the answer whose review has this id, or None. *)
Definition find_by_review_id (review_id : string) : M (option ReviewAnswer) :=
  log (ReviewAnswer_find_by_review_id review_id) ;;
  d <- rows ;;
  ret (find (answer_of_review review_id) (answers d)).

(** Modelled from the spec: [ReviewAnswerRepository.save] is missing; it
    inserts one answer row (section 4) and returns it. *)
Definition save (row : ReviewAnswer) : M ReviewAnswer :=
  log (ReviewAnswer_save row) ;;
  d <- rows ;;
  set_answers (answers d ++ [row]) ;;
  ret row.

(** Modelled from the spec: [ReviewAnswerRepository.delete] is missing;
    it removes the row of the entity it is given. *)
Definition delete (row : ReviewAnswer) : M unit :=
  log (ReviewAnswer_delete row) ;;
  d <- rows ;;
  set_answers
    (remove_first (answer_of_review (review_id (review row))) (answers d)).
End ReviewAnswerRepository.

Module ReviewAnswerEntity.
Import Schema Run.
Local Open Scope service_scope.

(** Modelled from the spec: [ReviewAnswer.update] is missing.
    [answer.update(content)] acts on an entity loaded by
    [find_by_review_id]; it is an ORM method, not a repository call. The
    row changes in place and the updated entity is the value of the
    variable from then on. *)
Definition update (row : ReviewAnswer) (new_content : string) : M ReviewAnswer :=
  log (ReviewAnswer_update row new_content) ;;
  d <- rows ;;
  set_answers
    (replace_first (answer_of_review (review_id (review row)))
                   (fun a => Schema.update a new_content) (answers d)) ;;
  ret (Schema.update row new_content).
End ReviewAnswerEntity.

(** The filtered, paged review query and [paginate] belong to the
    repository and pagination layers, which are not among the sources;
    the service only hands its arguments through. They are an interface
    here. *)
Class ReviewPaging := {
  Page : Type;
  Pagination : Type;
  select_page :
    list Schema.Review -> ReviewModel.Params -> string ->
    PyDate.date -> PyDate.date -> option string -> option bool -> Page;
  paginate : Page -> Pagination
}.

Module ReviewRepository.
Import Schema Run ReviewModel PyDate.
Local Open Scope service_scope.

Definition find_reviews_by_center `{RP : ReviewPaging}
    (params : Params) (center_id : string) (start end_ : date)
    (tag : option string) (is_answered : option bool) : M Page :=
  log (Review_find_reviews_by_center params center_id start end_ tag is_answered) ;;
  d <- rows ;;
  ret (select_page (reviews d) params center_id start end_ tag is_answered).

(** Modelled from the spec: [ReviewRepository.find_by_id_and_center_id]
    is missing; the review with this id in this center, or None. *)
Definition find_by_id_and_center_id (review_id center_id : string)
  : M (option Review) :=
  log (Review_find_by_id_and_center_id review_id center_id) ;;
  d <- rows ;;
  ret (find (review_has_id_and_center review_id center_id) (reviews d)).

(** Modelled from the spec: [ReviewRepository.find_all_by_center] is
    missing; all reviews of the center, in table order. *)
Definition find_all_by_center (center_id : string) : M (list Review) :=
  log (Review_find_all_by_center center_id) ;;
  d <- rows ;;
  ret (filter (review_in_center center_id) (reviews d)).
End ReviewRepository.

(* ===================================================================== *)
(** * claon_admin/service/review.py: class ReviewService *)
(* ===================================================================== *)

(** Each method takes the session first; here the session is the world
  the coroutine runs in. The decorator [@transactional] comes from
  claon_admin/common/util/transaction.py, which is not among the
  sources; the method bodies are what is modelled. *)
Module ReviewService.

Import Schema Error ReviewModel PyDate Run.
Local Open Scope service_scope.

Definition find_reviews_by_center `{RP : ReviewPaging}
    (subject : Auth.RequestUser) (params : Params) (center_id : string)
    (start end_ : date) (tag : option string) (is_answered : option bool)
  : M Pagination :=
  center <- CenterRepository.find_by_id center_id ;;
  center <- or_raise center
    (NotFoundException DATA_DOES_NOT_EXIST "해당 암장이 존재하지 않습니다.") ;;
  raise_if (negb (is_owner center (Auth.id subject)))
    (UnauthorizedException NOT_ACCESSIBLE "암장 관리자가 아닙니다.") ;;
  raise_if ((days_between end_ start >? 365) || (days_between end_ start <? 0))%Z
    (BadRequestException WRONG_DATE_RANGE "잘못된 날짜 범위입니다.") ;;
  pages <- ReviewRepository.find_reviews_by_center
             params center_id start end_ tag is_answered ;;
  ret (paginate pages).

Definition create_review_answer
    (subject : Auth.RequestUser) (dto : ReviewAnswerRequestDto)
    (center_id review_id : string) : M ReviewAnswerResponseDto :=
  center <- CenterRepository.find_by_id center_id ;;
  center <- or_raise center
    (NotFoundException DATA_DOES_NOT_EXIST "해당 암장이 존재하지 않습니다.") ;;
  raise_if (negb (is_owner center (Auth.id subject)))
    (UnauthorizedException NOT_ACCESSIBLE "암장 관리자가 아닙니다.") ;;
  review <- ReviewRepository.find_by_id_and_center_id
              review_id (Schema.center_id center) ;;
  review <- or_raise review
    (NotFoundException DATA_DOES_NOT_EXIST "해당 리뷰가 암장에 존재하지 않습니다.") ;;
  answer <- ReviewAnswerRepository.find_by_review_id (Schema.review_id review) ;;
  raise_if (match answer with Some _ => true | None => false end)
    (NotFoundException ROW_ALREADY_EXIST "이미 작성된 답변이 존재합니다.") ;;
  let new_answer := {| content := answer_content dto; review := review |} in
  result <- ReviewAnswerRepository.save new_answer ;;
  ret (ReviewAnswerResponseDto_from_entity result).

Definition update_review_answer
    (subject : Auth.RequestUser) (dto : ReviewAnswerRequestDto)
    (center_id review_id : string) : M ReviewAnswerResponseDto :=
  center <- CenterRepository.find_by_id center_id ;;
  center <- or_raise center
    (NotFoundException DATA_DOES_NOT_EXIST "해당 암장이 존재하지 않습니다.") ;;
  raise_if (negb (is_owner center (Auth.id subject)))
    (UnauthorizedException NOT_ACCESSIBLE "암장 관리자가 아닙니다.") ;;
  review <- ReviewRepository.find_by_id_and_center_id
              review_id (Schema.center_id center) ;;
  review <- or_raise review
    (NotFoundException DATA_DOES_NOT_EXIST "암장에 해당 리뷰가 존재하지 않습니다.") ;;
  answer <- ReviewAnswerRepository.find_by_review_id (Schema.review_id review) ;;
  answer <- or_raise answer
    (NotFoundException DATA_DOES_NOT_EXIST "해당 리뷰에 답변이 존재하지 않습니다.") ;;
  answer <- ReviewAnswerEntity.update answer (answer_content dto) ;;
  ret (ReviewAnswerResponseDto_from_entity answer).

Definition delete_review_answer
    (subject : Auth.RequestUser) (center_id review_id : string) : M unit :=
  center <- CenterRepository.find_by_id center_id ;;
  center <- or_raise center
    (NotFoundException DATA_DOES_NOT_EXIST "해당 암장이 존재하지 않습니다.") ;;
  raise_if (negb (is_owner center (Auth.id subject)))
    (UnauthorizedException NOT_ACCESSIBLE "암장 관리자가 아닙니다.") ;;
  review <- ReviewRepository.find_by_id_and_center_id
              review_id (Schema.center_id center) ;;
  review <- or_raise review
    (NotFoundException DATA_DOES_NOT_EXIST "암장에 해당 리뷰가 존재하지 않습니다.") ;;
  answer <- ReviewAnswerRepository.find_by_review_id (Schema.review_id review) ;;
  answer <- or_raise answer
    (NotFoundException DATA_DOES_NOT_EXIST "해당 리뷰에 답변이 존재하지 않습니다.") ;;
  ReviewAnswerRepository.delete answer.

(** The loop of the summary: one flag and one tag list per review. *)
Definition scan_reviews (reviews : list Review) : list bool * list (list ReviewTag) :=
  fold_left
    (fun acc review =>
       (fst acc ++ [match answer_id review with None => false | Some _ => true end],
        snd acc ++ [tag review]))
    reviews ([], []).

(** [sum(tags, [])] *)
Definition sum_lists {A} (ls : list (list A)) : list A :=
  fold_left (fun acc l => acc ++ l) ls [].

Definition find_reviews_summary_by_center
    (subject : Auth.RequestUser) (center_id : string)
  : M ReviewSummaryResponseDto :=
  center <- CenterRepository.find_by_id center_id ;;
  center <- or_raise center
    (NotFoundException DATA_DOES_NOT_EXIST "해당 암장이 존재하지 않습니다.") ;;
  raise_if (negb (is_owner center (Auth.id subject)))
    (UnauthorizedException NOT_ACCESSIBLE "암장 관리자가 아닙니다.") ;;
  reviews <- ReviewRepository.find_all_by_center (Schema.center_id center) ;;
  let '(is_answer, tags) := scan_reviews reviews in
  let tag_list := map word (sum_lists tags) in
  ret (ReviewSummaryResponseDto_from_entity
         center
         (Collections.Counter Bool.eqb is_answer)
         (map (fun '(tag, count) => {| tag_word := tag; count := count |})
              (Collections.items (Collections.Counter String.eqb tag_list)))).

End ReviewService.

(* ===================================================================== *)
(** * Regular expressions: the fragment of [re] the models use *)
(* ===================================================================== *)

Module Re.

Import PyStr.

(** [\d] on a [str] pattern accepts every Unicode decimal digit. The
    table comes with the interpreter; all that is fixed here is that it
    holds the ASCII digits. *)
Class UnicodeDb := {
  isdecimal : codepoint -> bool;
  isdecimal_ascii : forall c, (48 <= c <= 57)%N -> isdecimal c = true
}.

Definition chr (a : ascii) : codepoint := N_of_ascii a.

Inductive regex :=
| Bol                          (* ^ *)
| Eol                          (* $ *)
| Lit (c : codepoint)          (* a literal character *)
| Digit                        (* \d *)
| Range (lo hi : codepoint)    (* [lo-hi] *)
| Seq (a b : regex)            (* ab *)
| Alt (a b : regex).           (* a|b *)

(** Backtracking match of [r] at offset [pos], with [s] the text from
    there on; [k] is what remains to be matched. Without MULTILINE, [^]
    holds at offset 0 only, and [$] holds at the end of the text or just
    before a newline that ends it. *)
Fixpoint run `{U : UnicodeDb} (r : regex) (pos : nat) (s : str)
    (k : nat -> str -> bool) : bool :=
  match r with
  | Bol => Nat.eqb pos 0 && k pos s
  | Eol =>
      match s with
      | [] => k pos s
      | [c] => (c =? 10)%N && k pos s
      | _ => false
      end
  | Lit c =>
      match s with
      | x :: s' => (x =? c)%N && k (S pos) s'
      | [] => false
      end
  | Digit =>
      match s with
      | x :: s' => isdecimal x && k (S pos) s'
      | [] => false
      end
  | Range lo hi =>
      match s with
      | x :: s' => ((lo <=? x)%N && (x <=? hi)%N) && k (S pos) s'
      | [] => false
      end
  | Seq a b => run a pos s (fun pos' s' => run b pos' s' k)
  | Alt a b => run a pos s k || run b pos s k
  end.

(** [re.match(pattern, value)] as a truth value: a match that starts at
    offset 0 and may stop anywhere. *)
Definition match_ `{U : UnicodeDb} (pattern : regex) (value : str) : bool :=
  run pattern 0 value (fun _ _ => true).

End Re.

(* ===================================================================== *)
(** * claon_admin/model/center.py *)
(* ===================================================================== *)

Module CenterModel.

Import PyStr Re.

(** What a call of a field validator ends with. Pydantic turns a
    [ValueError] into a validation error of the field; any other
    exception leaves the validator as it is. *)
Inductive PyError :=
| ValueError (message : string)
| IndexError.

Inductive checked (A : Type) :=
| Accept (value : A)
| Reject (error : PyError).
Arguments Accept {A} value.
Arguments Reject {A} error.

Definition accepted {A} (c : checked A) : bool :=
  match c with Accept _ => true | Reject _ => false end.

(** A model is built when every field validator returned; the fields
    take the returned values. Otherwise the errors are gathered in field
    order. *)
Inductive parsed (A : Type) :=
| Parsed (model : A)
| ValidationError (errors : list PyError).
Arguments Parsed {A} model.
Arguments ValidationError {A} errors.

Definition errors_of {A} (c : checked A) : list PyError :=
  match c with Accept _ => [] | Reject e => [e] end.

(** r'^(0\d|1\d|2[0-3]):(0[1-9]|[0-5]\d)$', with its two groups named. *)
Definition hour_group : regex :=
  Alt (Seq (Lit (chr "0")) Digit)
 (Alt (Seq (Lit (chr "1")) Digit)
      (Seq (Lit (chr "2")) (Range (chr "0") (chr "3")))).

Definition minute_group : regex :=
  Alt (Seq (Lit (chr "0")) (Range (chr "1") (chr "9")))
      (Seq (Range (chr "0") (chr "5")) Digit).

Definition time_pattern : regex :=
  Seq Bol (Seq hour_group (Seq (Lit (chr ":")) (Seq minute_group Eol))).

(** ** class CenterOperatingTimeDto *)

Record CenterOperatingTimeDto := {
  day_of_week : str;
  start_time : str;
  end_time : str
}.

Definition days_of_week : list str :=
  [py "월"; py "화"; py "수"; py "목"; py "금"; py "토"; py "일"; py "공휴일"].

Definition validate_day_of_week (value : str) : checked str :=
  if negb (mem value days_of_week)
  then Reject (ValueError "요일은 월, 화, 수, 목, 금, 토, 일 중 하나로 입력 해주세요.")
  else Accept value.

Definition validate_start_time `{U : UnicodeDb} (value : str) : checked str :=
  if negb (match_ time_pattern value)
  then Reject (ValueError "올바른 시간 형식으로 입력 해주세요.")
  else Accept value.

Definition validate_end_time `{U : UnicodeDb} (value : str) : checked str :=
  if negb (match_ time_pattern value)
  then Reject (ValueError "올바른 시간 형식으로 입력 해주세요.")
  else Accept value.

Definition CenterOperatingTimeDto_validate `{U : UnicodeDb}
    (raw : CenterOperatingTimeDto) : parsed CenterOperatingTimeDto :=
  match validate_day_of_week (day_of_week raw),
        validate_start_time (start_time raw),
        validate_end_time (end_time raw) with
  | Accept d, Accept s, Accept e =>
      Parsed {| day_of_week := d; start_time := s; end_time := e |}
  | d, s, e => ValidationError (errors_of d ++ errors_of s ++ errors_of e)
  end.

(** ** class CenterFeeDto *)

Record CenterFeeDto := {
  name : str;
  price : Z;
  count : Z
}.

Definition validate_name (value : str) : checked str :=
  if ((len value <? 2) || (len value >? 50))%Z
  then Reject (ValueError "이름은 2자 이상 50자 이하로 입력 해주세요.")
  else Accept value.

Definition validate_price (value : Z) : checked Z :=
  if (value <? 0)%Z
  then Reject (ValueError "가격은 0원 이상으로 입력 해주세요.")
  else Accept value.

Definition validate_count (value : Z) : checked Z :=
  if (value <? 0)%Z
  then Reject (ValueError "횟수는 0회 이상으로 입력 해주세요.")
  else Accept value.

Definition CenterFeeDto_validate (raw : CenterFeeDto) : parsed CenterFeeDto :=
  match validate_name (name raw),
        validate_price (price raw),
        validate_count (count raw) with
  | Accept n, Accept p, Accept c =>
      Parsed {| name := n; price := p; count := c |}
  | n, p, c => ValidationError (errors_of n ++ errors_of p ++ errors_of c)
  end.

(** ** class CenterRequestDto, field youtube_code *)

(** The body ends after the check of the first character: when the
    check passes the function falls off its end, which returns None.
    [value[0]] on the empty string raises IndexError. *)
Definition validate_youtube_code (value : option str) : checked (option str) :=
  match value with
  | None => Accept value
  | Some v =>
      match v with
      | [] => Reject IndexError
      | c :: _ =>
          if negb (c =? chr "@")%N
          then Reject (ValueError "유튜브 채널 코드는 @로 시작 해주세요.")
          else Accept None
      end
  end.

End CenterModel.

(* ===================================================================== *)
(** * The five operations as one entry point *)
(* ===================================================================== *)

Module Api.

Import Schema Error ReviewModel PyDate Run.
Local Open Scope service_scope.

(** A call of a method of [ReviewService] with its arguments. *)
Inductive Request :=
| Find_reviews_by_center
    (subject : Auth.RequestUser) (params : Params) (center_id : string)
    (start end_ : date) (tag : option string) (is_answered : option bool)
| Create_review_answer
    (subject : Auth.RequestUser) (dto : ReviewAnswerRequestDto)
    (center_id review_id : string)
| Update_review_answer
    (subject : Auth.RequestUser) (dto : ReviewAnswerRequestDto)
    (center_id review_id : string)
| Delete_review_answer
    (subject : Auth.RequestUser) (center_id review_id : string)
| Find_reviews_summary_by_center
    (subject : Auth.RequestUser) (center_id : string).

Inductive Response `{RP : ReviewPaging} :=
| Reviews (pages : Pagination)
| Answer (dto : ReviewAnswerResponseDto)
| Deleted
| Summary (dto : ReviewSummaryResponseDto).

Definition call `{RP : ReviewPaging} (req : Request) : M Response :=
  match req with
  | Find_reviews_by_center subject params center_id start end_ tag is_answered =>
      r <- ReviewService.find_reviews_by_center
             subject params center_id start end_ tag is_answered ;;
      ret (Reviews r)
  | Create_review_answer subject dto center_id review_id =>
      r <- ReviewService.create_review_answer subject dto center_id review_id ;;
      ret (Answer r)
  | Update_review_answer subject dto center_id review_id =>
      r <- ReviewService.update_review_answer subject dto center_id review_id ;;
      ret (Answer r)
  | Delete_review_answer subject center_id review_id =>
      ReviewService.delete_review_answer subject center_id review_id ;;
      ret Deleted
  | Find_reviews_summary_by_center subject center_id =>
      r <- ReviewService.find_reviews_summary_by_center subject center_id ;;
      ret (Summary r)
  end.

Definition subject_of (req : Request) : Auth.RequestUser :=
  match req with
  | Find_reviews_by_center s _ _ _ _ _ _ => s
  | Create_review_answer s _ _ _ => s
  | Update_review_answer s _ _ _ => s
  | Delete_review_answer s _ _ => s
  | Find_reviews_summary_by_center s _ => s
  end.

Definition center_id_of (req : Request) : string :=
  match req with
  | Find_reviews_by_center _ _ c _ _ _ _ => c
  | Create_review_answer _ _ c _ => c
  | Update_review_answer _ _ c _ => c
  | Delete_review_answer _ c _ => c
  | Find_reviews_summary_by_center _ c => c
  end.

End Api.

(* ===================================================================== *)
(** * Vocabulary of the properties *)
(* ===================================================================== *)

Module Props.

Import Schema Error ReviewModel PyDate Run Api.

(** Rows as the properties speak of them. *)
Definition center_of (d : DB) (center_id : string) : option Center :=
  find (center_has_id center_id) (centers d).

Definition review_of (d : DB) (center_id review_id : string) : option Review :=
  find (review_has_id_and_center review_id center_id) (reviews d).

Definition answer_of (d : DB) (review_id : string) : option ReviewAnswer :=
  find (answer_of_review review_id) (answers d).

Definition present {A} (o : option A) : bool :=
  match o with Some _ => true | None => false end.

Definition owned_by (d : DB) (center_id : string) (user : Auth.RequestUser) : bool :=
  match center_of d center_id with
  | Some c => String.eqb (center_owner_id c) (Auth.id user)
  | None => false
  end.

(** A review is answered when its answer reference is not null. *)
Definition is_answered (r : Review) : bool := present (answer_id r).

(** A precondition of an operation, with the exception its violation is
    answered with. *)
Record Guard := { holds : bool; otherwise : Exception }.

Definition center_exists (d : DB) (center_id : string) : Guard :=
  {| holds := present (center_of d center_id);
     otherwise := NotFoundException DATA_DOES_NOT_EXIST
                    "해당 암장이 존재하지 않습니다." |}.

Definition requester_owns (d : DB) (center_id : string)
    (user : Auth.RequestUser) : Guard :=
  {| holds := owned_by d center_id user;
     otherwise := UnauthorizedException NOT_ACCESSIBLE
                    "암장 관리자가 아닙니다." |}.

Definition range_valid (start end_ : date) : Guard :=
  {| holds := (0 <=? toordinal end_ - toordinal start)%Z
              && (toordinal end_ - toordinal start <=? 365)%Z;
     otherwise := BadRequestException WRONG_DATE_RANGE
                    "잘못된 날짜 범위입니다." |}.

Definition review_exists (d : DB) (center_id review_id message : string) : Guard :=
  {| holds := present (review_of d center_id review_id);
     otherwise := NotFoundException DATA_DOES_NOT_EXIST message |}.

Definition not_answered (d : DB) (review_id : string) : Guard :=
  {| holds := negb (present (answer_of d review_id));
     otherwise := NotFoundException ROW_ALREADY_EXIST
                    "이미 작성된 답변이 존재합니다." |}.

Definition answered (d : DB) (review_id : string) : Guard :=
  {| holds := present (answer_of d review_id);
     otherwise := NotFoundException DATA_DOES_NOT_EXIST
                    "해당 리뷰에 답변이 존재하지 않습니다." |}.

(** The preconditions of each operation, in the order it checks them. *)
Definition guards (req : Request) (d : DB) : list Guard :=
  match req with
  | Find_reviews_by_center subject _ cid start end_ _ _ =>
      [center_exists d cid; requester_owns d cid subject; range_valid start end_]
  | Create_review_answer subject _ cid rid =>
      [center_exists d cid; requester_owns d cid subject;
       review_exists d cid rid "해당 리뷰가 암장에 존재하지 않습니다.";
       not_answered d rid]
  | Update_review_answer subject _ cid rid
  | Delete_review_answer subject cid rid =>
      [center_exists d cid; requester_owns d cid subject;
       review_exists d cid rid "암장에 해당 리뷰가 존재하지 않습니다.";
       answered d rid]
  | Find_reviews_summary_by_center subject cid =>
      [center_exists d cid; requester_owns d cid subject]
  end.

Definition first_violated (gs : list Guard) : option Guard :=
  find (fun g => negb (holds g)) gs.

(** The calls an operation added to the log, and whether they only
    read. *)
Definition added (w w' : World) : list RepoCall :=
  skipn (length (calls w)) (calls w').

Definition read_only (l : list RepoCall) : bool :=
  forallb (fun c => negb (is_write c)) l.

(** What an operation that passes its guards does to the rows. *)
Definition with_answers (d : DB) (l : list ReviewAnswer) : DB :=
  {| centers := centers d; reviews := reviews d; answers := l |}.

Definition effect (req : Request) (d : DB) : DB :=
  match req with
  | Create_review_answer _ dto cid rid =>
      match review_of d cid rid with
      | Some r =>
          with_answers d
            (answers d ++ [{| content := answer_content dto; review := r |}])
      | None => d
      end
  | Update_review_answer _ dto _ rid =>
      with_answers d
        (replace_first (answer_of_review rid)
           (fun a => Schema.update a (answer_content dto)) (answers d))
  | Delete_review_answer _ _ rid =>
      with_answers d (remove_first (answer_of_review rid) (answers d))
  | Find_reviews_by_center _ _ _ _ _ _ _
  | Find_reviews_summary_by_center _ _ => d
  end.

(** Number of answers a review has. *)
Definition answers_for (d : DB) (review_id : string) : nat :=
  length (filter (answer_of_review review_id) (answers d)).

(** One review has at most one answer. *)
Definition one_answer_per_review (d : DB) : Prop :=
  forall review_id, (answers_for d review_id <= 1)%nat.

End Props.

Module ModelProps.

Import PyStr Re.

(** The time of day the specification asks for: two ASCII digits, a
    colon, two ASCII digits, the hour from 00 to 23 and the minute from
    00 to 59, and nothing else. *)
Definition ascii_digit (c : codepoint) : bool :=
  (chr "0" <=? c)%N && (c <=? chr "9")%N.

Definition digit_value (c : codepoint) : N := (c - chr "0")%N.

Definition is_hh_mm (s : str) : bool :=
  match s with
  | [h1; h2; c; m1; m2] =>
      ascii_digit h1 && ascii_digit h2 && (c =? chr ":")%N
      && ascii_digit m1 && ascii_digit m2
      && (10 * digit_value h1 + digit_value h2 <=? 23)%N
      && (10 * digit_value m1 + digit_value m2 <=? 59)%N
  | _ => false
  end.

(** What the two groups of the pattern admit, character by character. *)
Definition hour_ok `{U : UnicodeDb} (h1 h2 : codepoint) : bool :=
  (((h1 =? chr "0") || (h1 =? chr "1"))%N && isdecimal h2)
  || ((h1 =? chr "2")%N && ((chr "0" <=? h2) && (h2 <=? chr "3"))%N).

Definition minute_ok `{U : UnicodeDb} (m1 m2 : codepoint) : bool :=
  ((chr "0" <=? m1) && (m1 <=? chr "5"))%N && isdecimal m2.

(** The strings the pattern matches: hour, colon, minute, and then the
    end of the string or one newline that ends it. *)
Definition time_accepted `{U : UnicodeDb} (s : str) : bool :=
  match s with
  | [h1; h2; c; m1; m2] =>
      hour_ok h1 h2 && (c =? chr ":")%N && minute_ok m1 m2
  | [h1; h2; c; m1; m2; nl] =>
      hour_ok h1 h2 && (c =? chr ":")%N && minute_ok m1 m2 && (nl =? 10)%N
  | _ => false
  end.

End ModelProps.

(* ===================================================================== *)
(** * Sample data *)
(* ===================================================================== *)

Module Sample.

Import Schema ReviewModel PyDate Run Api.

(** A paging layer that hands back the reviews of the center, unpaged. *)
#[export] Instance whole_list : ReviewPaging := {|
  Page := list Review;
  Pagination := list Review;
  select_page := fun rows _ center_id _ _ _ _ =>
                   filter (review_in_center center_id) rows;
  paginate := fun p => p
|}.

(** A digit table with the ASCII digits only. *)
Definition ascii_digit_ok (c : PyStr.codepoint)
    (H : (48 <= c <= 57)%N) : ModelProps.ascii_digit c = true :=
  andb_true_intro
    (conj (proj2 (N.leb_le 48 c) (proj1 H)) (proj2 (N.leb_le c 57) (proj2 H))).

#[export] Instance ascii_digits : Re.UnicodeDb := {|
  Re.isdecimal := ModelProps.ascii_digit;
  Re.isdecimal_ascii := ascii_digit_ok
|}.

Definition gym : Center :=
  {| center_id := "center-1"; center_owner_id := "admin-1"; center_name := "gym" |}.

Definition owner : Auth.RequestUser :=
  {| Auth.id := "admin-1"; Auth.sns := "test@claon.com"; Auth.role := Auth.CENTER_ADMIN |}.

Definition stranger : Auth.RequestUser :=
  {| Auth.id := "123456"; Auth.sns := "test@claon.com"; Auth.role := Auth.CENTER_ADMIN |}.

Definition open_review : Review :=
  {| review_id := "review-1"; review_user_id := "user-1";
     review_center_id := "center-1";
     tag := [ {| word := "kind" |}; {| word := "clean" |} ];
     answer_id := None |}.

Definition closed_review : Review :=
  {| review_id := "review-2"; review_user_id := "user-2";
     review_center_id := "center-1";
     tag := [ {| word := "kind" |} ];
     answer_id := Some "answer-2" |}.

Definition old_answer : ReviewAnswer :=
  {| content := "thanks"; review := closed_review |}.

Definition store : DB :=
  {| centers := [gym];
     reviews := [open_review; closed_review];
     answers := [old_answer] |}.

Definition world : World := {| db := store; calls := [] |}.

Definition new_answer : ReviewAnswerRequestDto :=
  {| answer_content := "new answer" |}.

Definition day (n : Z) : date := {| toordinal := n |}.

End Sample.

(* ===================================================================== *)
(** * claon_admin/model/center.py, the remaining models *)
(* ===================================================================== *)

(** ** class CenterHoldDto *)
Module CenterHoldDto.
Import PyStr CenterModel.

Record t := { difficulty : str; name : str }.

Definition validate_difficulty (value : str) : checked str :=
  if ((len value <? 2) || (len value >? 10))%Z
  then Reject (ValueError "홀드 난이도는 1자 이상 10자 이하로 입력 해주세요.")
  else Accept value.

Definition validate_name (value : str) : checked str :=
  if ((len value <? 2) || (len value >? 10))%Z
  then Reject (ValueError "홀드 이름은 1자 이상 10자 이하로 입력 해주세요.")
  else Accept value.

Definition validate (raw : t) : parsed t :=
  match validate_difficulty (difficulty raw), validate_name (name raw) with
  | Accept d, Accept n => Parsed {| difficulty := d; name := n |}
  | d, n => ValidationError (errors_of d ++ errors_of n)
  end.

End CenterHoldDto.

(** ** class CenterWallDto, field name *)
Module CenterWallDto.
Import PyStr CenterModel.

Definition validate_name (value : str) : checked str :=
  if ((len value <? 2) || (len value >? 20))%Z
  then Reject (ValueError "벽 이름은 2자 이상 20자 이하로 입력 해주세요.")
  else Accept value.

End CenterWallDto.

(** ** class CenterRequestDto *)
Module CenterRequestDto.
Import PyStr Re CenterModel.

(** What the validators take from outside this file: the two bounds of
    the Hangul syllable block from claon_admin/config/consts.py, which is
    not among the sources, and the interpreter's table behind
    [str.isdigit]. *)
Class Consts := {
  KOR_BEGIN_CODE : N;
  KOR_END_CODE : N;
  isdigit : codepoint -> bool
}.

(** The test applied to each character [c] of a name:
    ('a' <= c <= 'z') or ('A' <= c <= 'Z')
    or (KOR_BEGIN_CODE <= ord(c) <= KOR_END_CODE) or c.isdigit() *)
Definition name_char `{C : Consts} (c : codepoint) : bool :=
  ((chr "a" <=? c) && (c <=? chr "z"))%N
  || ((chr "A" <=? c) && (c <=? chr "Z"))%N
  || ((KOR_BEGIN_CODE <=? c) && (c <=? KOR_END_CODE))%N
  || isdigit c.

(** [for c in value: if not (...): raise ValueError(message)]: the loop
    raises at the first character that fails the test. *)
Fixpoint each_char `{C : Consts} (value : str) (message : string)
  : checked unit :=
  match value with
  | [] => Accept tt
  | c :: rest =>
      if negb (name_char c) then Reject (ValueError message)
      else each_char rest message
  end.

Definition validate_name `{C : Consts} (value : str) : checked str :=
  match each_char value "암장명은 한글, 영문, 숫자로만 입력 해주세요." with
  | Reject e => Reject e
  | Accept _ =>
      if ((len value <? 2) || (len value >? 50))%Z
      then Reject (ValueError "암장명은 2자 이상 50자 이하로 입력 해주세요.")
      else Accept value
  end.

(** \d{1,2}, \d{3,4} and \d{4}: a greedy bounded repetition tries the
    longer run first. *)
Definition digits_1_2 : regex := Alt (Seq Digit Digit) Digit.

Definition digits_4 : regex := Seq Digit (Seq Digit (Seq Digit Digit)).

Definition digits_3_4 : regex := Alt digits_4 (Seq Digit (Seq Digit Digit)).

(** r'^(0)\d{1,2}-\d{3,4}-\d{4}$' *)
Definition tel_pattern : regex :=
  Seq Bol
 (Seq (Lit (chr "0"))
 (Seq digits_1_2
 (Seq (Lit (chr "-"))
 (Seq digits_3_4
 (Seq (Lit (chr "-"))
 (Seq digits_4 Eol)))))).

(** The validator is declared with pre=True: it sees the raw value. The
    model covers the raw values that are strings. *)
Definition validate_tel `{U : UnicodeDb} (value : str) : checked str :=
  if negb (match_ tel_pattern value)
  then Reject (ValueError "전화번호를 올바른 형식으로 다시 입력해주세요.")
  else Accept value.

Definition validate_instagram_name `{C : Consts} (value : option str)
  : checked (option str) :=
  match value with
  | None => Accept value
  | Some v =>
      match each_char v "인스타그램 닉네임은 한글, 영문, 숫자로만 입력 해주세요." with
      | Reject e => Reject e
      | Accept _ =>
          if ((len v <? 3) || (len v >? 30))%Z
          then Reject (ValueError "인스타그램 닉네임은 3자 이상 30자 이하로 입력 해주세요.")
          else Accept value
      end
  end.

Definition validate_image_list (value : list string) : checked (list string) :=
  if (Z.of_nat (length value) >? 10)%Z
  then Reject (ValueError "이미지는 최대 10장까지 등록 가능해요.")
  else Accept value.

Definition validate_fee_image_list (value : list string) : checked (list string) :=
  if (Z.of_nat (length value) >? 5)%Z
  then Reject (ValueError "이용요금 이미지는 최대 10장까지 등록 가능해요.")
  else Accept value.

Definition validate_operating_time_list (value : list CenterOperatingTimeDto)
  : checked (list CenterOperatingTimeDto) :=
  if (Z.of_nat (length value) >? 8)%Z
  then Reject (ValueError "운영시간은 최대 8개까지 등록 가능해요.")
  else Accept value.

Definition validate_proof_list (value : list string) : checked (list string) :=
  if (Z.of_nat (length value) >? 5)%Z
  then Reject (ValueError "증빙자료는 5개 이하로 입력 해주세요.")
  else Accept value.

End CenterRequestDto.

(* ===================================================================== *)
(** * Further vocabulary *)
(* ===================================================================== *)

Module MoreProps.
Import Schema Run Api Props PyStr Re.

(** The review an operation is aimed at, if it is aimed at one. *)
Definition review_id_of (req : Request) : option string :=
  match req with
  | Create_review_answer _ _ _ rid
  | Update_review_answer _ _ _ rid
  | Delete_review_answer _ _ rid => Some rid
  | Find_reviews_by_center _ _ _ _ _ _ _
  | Find_reviews_summary_by_center _ _ => None
  end.

(** The answers of the reviews other than [rid], in table order. *)
Definition answers_of_others (d : DB) (rid : string) : list ReviewAnswer :=
  filter (fun a => negb (answer_of_review rid a)) (answers d).

(** The distinct elements of a list, in order of first occurrence. *)
Fixpoint first_occurrences {K} (eqb : K -> K -> bool) (l : list K) : list K :=
  match l with
  | [] => []
  | x :: l' => x :: filter (fun y => negb (eqb x y)) (first_occurrences eqb l')
  end.

(** [y] is not among the keys. *)
Definition missing {K} (eqb : K -> K -> bool) (keys : list K) (y : K) : bool :=
  negb (existsb (fun k' => eqb k' y) keys).

(** Sum of the counts a Counter holds. *)
Definition total {K} (c : Collections.counter (K := K)) : nat :=
  list_sum (map snd c).

(** What it means for a pattern to match the piece [s1] of a text at
    offset [pos], with [s2] the text after the piece. *)
Fixpoint matches `{U : UnicodeDb} (r : regex) (pos : nat) (s1 s2 : str) : Prop :=
  match r with
  | Bol => s1 = [] /\ pos = 0%nat
  | Eol => s1 = [] /\ (s2 = [] \/ s2 = [10%N])
  | Lit c => s1 = [c]
  | Digit => exists x, s1 = [x] /\ isdecimal x = true
  | Range lo hi => exists x, s1 = [x] /\ (lo <= x <= hi)%N
  | Seq a b =>
      exists u v, s1 = u ++ v /\
                  matches a pos u (v ++ s2) /\
                  matches b (pos + length u) v s2
  | Alt a b => matches a pos s1 s2 \/ matches b pos s1 s2
  end.

(** The telephone numbers the pattern is written for: 0, one or two
    digits, a hyphen, three or four digits, a hyphen, four digits. *)
Definition all_digits `{U : UnicodeDb} (s : str) : bool := forallb isdecimal s.

Definition tel_shape `{U : UnicodeDb} (area mid last : str) : bool :=
  ((length area =? 1)%nat || (length area =? 2)%nat) && all_digits area
  && ((length mid =? 3)%nat || (length mid =? 4)%nat) && all_digits mid
  && (length last =? 4)%nat && all_digits last.

Definition tel_text (area mid last : str) : str :=
  chr "0" :: area ++ chr "-" :: mid ++ chr "-" :: last.

End MoreProps.

(** More sample data: a second center with a review of its own, and the
    constants of the name validators. *)
Module MoreSample.
Import Schema Run Sample.

Definition other_gym : Center :=
  {| center_id := "center-2"; center_owner_id := "admin-2"; center_name := "wall" |}.

Definition foreign_review : Review :=
  {| review_id := "review-9"; review_user_id := "user-3";
     review_center_id := "center-2";
     tag := [ {| word := "wide" |} ];
     answer_id := None |}.

Definition two_gyms : DB :=
  {| centers := [gym; other_gym];
     reviews := [open_review; closed_review; foreign_review];
     answers := [old_answer] |}.

Definition world2 : World := {| db := two_gyms; calls := [] |}.

Definition revised : ReviewModel.ReviewAnswerRequestDto :=
  {| ReviewModel.answer_content := "thank you" |}.

(** The Hangul syllable block runs from U+AC00 to U+D7A3. *)
#[export] Instance hangul : CenterRequestDto.Consts := {|
  CenterRequestDto.KOR_BEGIN_CODE := 44032%N;
  CenterRequestDto.KOR_END_CODE := 55203%N;
  CenterRequestDto.isdigit := ModelProps.ascii_digit
|}.

End MoreSample.

(* ===================================================================== *)
(** * Properties of the review service *)
(* ===================================================================== *)

Section ReviewServiceProperties.

Import Schema Error ReviewModel PyDate Run Api Props.

Context `{RP : ReviewPaging}.

(** ** Facts about the queries *)

Lemma find_center_has_id (cid : string) (l : list Center) (c : Center) :
  find (center_has_id cid) l = Some c -> center_id c = cid.
Proof.
  intros Hf. apply find_some in Hf. destruct Hf as [_ Hf].
  now apply String.eqb_eq in Hf.
Qed.

Lemma find_review_has_ids (rid cid : string) (l : list Review) (r : Review) :
  find (review_has_id_and_center rid cid) l = Some r ->
  review_id r = rid /\ review_center_id r = cid.
Proof.
  intros Hf. apply find_some in Hf. destruct Hf as [_ Hf].
  unfold review_has_id_and_center in Hf.
  apply andb_true_iff in Hf. destruct Hf as [H1 H2].
  split; now apply String.eqb_eq.
Qed.

Lemma find_answer_of_review (rid : string) (l : list ReviewAnswer) (a : ReviewAnswer) :
  find (answer_of_review rid) l = Some a -> review_id (review a) = rid.
Proof.
  intros Hf. apply find_some in Hf. destruct Hf as [_ Hf].
  now apply String.eqb_eq in Hf.
Qed.

Lemma added_app (d d' : DB) (cs l : list RepoCall) :
  added {| db := d; calls := cs |} {| db := d'; calls := cs ++ l |} = l.
Proof.
  unfold added. simpl. induction cs as [|c cs IH]; simpl; auto.
Qed.

(** Unfold an operation down to its queries. *)
Ltac run_service :=
  cbv [call
       ReviewService.create_review_answer ReviewService.update_review_answer
       ReviewService.delete_review_answer ReviewService.find_reviews_by_center
       ReviewService.find_reviews_summary_by_center
       CenterRepository.find_by_id ReviewRepository.find_by_id_and_center_id
       ReviewRepository.find_all_by_center ReviewRepository.find_reviews_by_center
       ReviewAnswerRepository.find_by_review_id ReviewAnswerRepository.save
       ReviewAnswerRepository.delete ReviewAnswerEntity.update
       bind ret raise log rows set_answers or_raise raise_if db calls].

(** Split on the center query; in the found case the id of the row is
    the id asked for. *)
Ltac on_center cid d :=
  let Hc := fresh "Hc" in
  let c := fresh "c" in
  destruct (find (center_has_id cid) (centers d)) as [c|] eqn:Hc;
  [ pose proof (find_center_has_id _ _ _ Hc) | ].

(** C1: create_review_answer rejects, inserting nothing, when the center
    is missing, the requester is not its owner, the review is missing
    from the center or an answer already exists; otherwise it saves
    exactly one new answer, with the request's content and the found
    review, and returns the DTO of the saved row. *)
Theorem create_review_answer_contract
    (subject : Auth.RequestUser) (dto : ReviewAnswerRequestDto)
    (cid rid : string) (w w' : World) (out : Outcome ReviewAnswerResponseDto) :
  ReviewService.create_review_answer subject dto cid rid w = (out, w') ->
  ((center_of (db w) cid = None \/ owned_by (db w) cid subject = false \/
    review_of (db w) cid rid = None \/ answer_of (db w) rid <> None) ->
   (exists e, out = Raise e) /\ db w' = db w)
  /\
  (forall r,
     center_of (db w) cid <> None -> owned_by (db w) cid subject = true ->
     review_of (db w) cid rid = Some r -> answer_of (db w) rid = None ->
     let row := {| content := answer_content dto; review := r |} in
     out = Return (ReviewAnswerResponseDto_from_entity row) /\
     db w' = {| centers := centers (db w);
                reviews := reviews (db w);
                answers := answers (db w) ++ [row] |} /\
     filter is_write (added w w') = [ReviewAnswer_save row]).
Proof.
  destruct w as [d cs].
  unfold center_of, owned_by, review_of, answer_of, center_of, is_owner.
  run_service. unfold is_owner.
  on_center cid d.
  - subst cid.
    destruct (String.eqb (center_owner_id c) (Auth.id subject)) eqn:Hown; simpl.
    + destruct (find (review_has_id_and_center rid (center_id c)) (reviews d))
        as [r|] eqn:Hr.
      * destruct (find_review_has_ids _ _ _ _ Hr) as [Hrid _]. rewrite Hrid.
        destruct (find (answer_of_review rid) (answers d)) as [a|] eqn:Ha; simpl.
        -- intros E; inversion E; subst; clear E. split.
           ++ intros _. split; [eauto | reflexivity].
           ++ intros r' _ _ _ Habs. discriminate.
        -- intros E; inversion E; subst out w'; clear E. split.
           ++ intros [Habs | [Habs | [Habs | Habs]]];
                try discriminate; now elim Habs.
           ++ intros r' _ _ Hr' _. inversion Hr'; subst r'.
              repeat rewrite <- app_assoc. rewrite added_app. simpl. auto.
      * intros E; inversion E; subst; clear E. split.
        -- intros _. split; [eauto | reflexivity].
        -- intros r' _ _ Habs. discriminate.
    + intros E; inversion E; subst; clear E. split.
      * intros _. split; [eauto | reflexivity].
      * intros r' _ Habs. discriminate.
  - intros E; inversion E; subst; clear E. split.
    + intros _. split; [eauto | reflexivity].
    + intros r' Habs. now elim Habs.
Qed.

(** The same operation, outcome by outcome. Every later fact about
    create_review_answer reads off this table. *)
Lemma create_review_answer_cases
    (subject : Auth.RequestUser) (dto : ReviewAnswerRequestDto)
    (cid rid : string) (d : DB) (cs : list RepoCall) :
  let run := ReviewService.create_review_answer subject dto cid rid
               {| db := d; calls := cs |} in
  match center_of d cid with
  | None =>
      run = (Raise (otherwise (center_exists d cid)),
             {| db := d; calls := cs ++ [Center_find_by_id cid] |})
  | Some c =>
      if negb (String.eqb (center_owner_id c) (Auth.id subject)) then
        run = (Raise (otherwise (requester_owns d cid subject)),
               {| db := d; calls := cs ++ [Center_find_by_id cid] |})
      else
        match review_of d cid rid with
        | None =>
            run = (Raise (NotFoundException DATA_DOES_NOT_EXIST
                            "해당 리뷰가 암장에 존재하지 않습니다."),
                   {| db := d;
                      calls := cs ++ [Center_find_by_id cid;
                                      Review_find_by_id_and_center_id rid cid] |})
        | Some r =>
            match answer_of d rid with
            | Some _ =>
                run = (Raise (otherwise (not_answered d rid)),
                       {| db := d;
                          calls := cs ++ [Center_find_by_id cid;
                                          Review_find_by_id_and_center_id rid cid;
                                          ReviewAnswer_find_by_review_id rid] |})
            | None =>
                let row := {| content := answer_content dto; review := r |} in
                run = (Return (ReviewAnswerResponseDto_from_entity row),
                       {| db := {| centers := centers d; reviews := reviews d;
                                   answers := answers d ++ [row] |};
                          calls := cs ++ [Center_find_by_id cid;
                                          Review_find_by_id_and_center_id rid cid;
                                          ReviewAnswer_find_by_review_id rid;
                                          ReviewAnswer_save row] |})
            end
        end
  end.
Proof.
  unfold center_of, review_of, answer_of. run_service. unfold is_owner.
  on_center cid d; [subst cid | reflexivity].
  destruct (String.eqb (center_owner_id c) (Auth.id subject)); simpl;
    [ | reflexivity].
  destruct (find (review_has_id_and_center rid (center_id c)) (reviews d))
    as [r|] eqn:Hr; [ | now repeat rewrite <- app_assoc].
  destruct (find_review_has_ids _ _ _ _ Hr) as [Hrid _]. rewrite Hrid.
  destruct (find (answer_of_review rid) (answers d)); simpl;
    now repeat rewrite <- app_assoc.
Qed.

(** C2, as amended: with the center present, the requester its owner,
    the review in the center and an answer already stored, the call
    raises NotFoundException with the code ROW_ALREADY_EXIST, an error of
    the not-found kind, and leaves the rows as they were. *)
Theorem create_review_answer_already_answered
    (subject : Auth.RequestUser) (dto : ReviewAnswerRequestDto)
    (cid rid : string) (w : World) :
  center_of (db w) cid <> None ->
  owned_by (db w) cid subject = true ->
  review_of (db w) cid rid <> None ->
  answer_of (db w) rid <> None ->
  exists e w',
    ReviewService.create_review_answer subject dto cid rid w = (Raise e, w') /\
    e = NotFoundException ROW_ALREADY_EXIST "이미 작성된 답변이 존재합니다." /\
    kind_of e = NotFound /\ code_of e = ROW_ALREADY_EXIST /\
    db w' = db w.
Proof.
  destruct w as [d cs]. simpl. unfold owned_by.
  intros Hc Hown Hr Ha.
  pose proof (create_review_answer_cases subject dto cid rid d cs) as Hrun.
  simpl in Hrun.
  destruct (center_of d cid) as [c|]; [ | now elim Hc].
  rewrite Hown in Hrun. simpl in Hrun.
  destruct (review_of d cid rid) as [r|]; [ | now elim Hr].
  destruct (answer_of d rid) as [a|]; [ | now elim Ha].
  eexists. eexists. split; [exact Hrun | ]. simpl. auto.
Qed.

(** C10: whenever create_review_answer raises, the rows are as before
    and no save was made: every call added to the log is a read. *)
Theorem create_review_answer_atomic
    (subject : Auth.RequestUser) (dto : ReviewAnswerRequestDto)
    (cid rid : string) (w w' : World) (e : Exception) :
  ReviewService.create_review_answer subject dto cid rid w = (Raise e, w') ->
  db w' = db w /\
  answers (db w') = answers (db w) /\
  (forall row, ~ In (ReviewAnswer_save row) (added w w')) /\
  read_only (added w w') = true.
Proof.
  destruct w as [d cs]. intros Hrun.
  pose proof (create_review_answer_cases subject dto cid rid d cs) as Hcase.
  simpl in Hcase. rewrite Hrun in Hcase.
  destruct (center_of d cid) as [c|].
  - destruct (negb (String.eqb (center_owner_id c) (Auth.id subject))).
    + inversion Hcase; subst. rewrite added_app. simpl.
      repeat split; auto. intros row [H|[]]; discriminate.
    + destruct (review_of d cid rid) as [r|].
      * destruct (answer_of d rid) as [a|].
        -- inversion Hcase; subst. rewrite added_app. simpl.
           repeat split; auto.
           intros row [H|[H|[H|[]]]]; discriminate.
        -- discriminate.
      * inversion Hcase; subst. rewrite added_app. simpl.
        repeat split; auto. intros row [H|[H|[]]]; discriminate.
  - inversion Hcase; subst. rewrite added_app. simpl.
    repeat split; auto. intros row [H|[]]; discriminate.
Qed.

(** ** All operations against their guards *)

Lemma first_violated_split (gs : list Guard) (g : Guard) :
  first_violated gs = Some g ->
  exists passed rest,
    gs = passed ++ g :: rest /\
    forallb holds passed = true /\ holds g = false.
Proof.
  unfold first_violated. induction gs as [|g0 gs IH]; simpl; [discriminate | ].
  destruct (holds g0) eqn:Hg0; simpl.
  - intros Hf. destruct (IH Hf) as (passed & rest & -> & Hp & Hg).
    exists (g0 :: passed), rest. simpl. rewrite Hg0, Hp. auto.
  - intros Hf. inversion Hf; subst g0.
    exists [], gs. auto.
Qed.

(** An operation raises exactly when one of its guards is violated, and
    then it raises the exception of the first violated one, having only
    read. When every guard holds it returns, and the rows are those of
    [effect]. *)
Lemma call_by_guards (req : Request) (d : DB) (cs : list RepoCall) :
  match first_violated (guards req d) with
  | Some g =>
      exists reads,
        call req {| db := d; calls := cs |} =
          (Raise (otherwise g), {| db := d; calls := cs ++ reads |}) /\
        read_only reads = true
  | None =>
      exists r made,
        call req {| db := d; calls := cs |} =
          (Return r, {| db := effect req d; calls := cs ++ made |})
  end.
Proof.
  destruct req as [subject params cid start end_ tg ia
                  | subject dto cid rid | subject dto cid rid
                  | subject cid rid | subject cid];
    unfold first_violated, guards, effect, with_answers,
           center_exists, requester_owns, range_valid,
           review_exists, not_answered, answered, owned_by,
           center_of, review_of, answer_of, days_between;
    run_service; unfold is_owner, days_between; simpl;
    (on_center cid d; simpl;
     [ subst cid | eexists; split; [reflexivity | reflexivity] ]);
    (destruct (String.eqb (center_owner_id c) (Auth.id subject)); simpl;
     [ | eexists; split; [reflexivity | reflexivity] ]).
  - (* find_reviews_by_center *)
    destruct (toordinal end_ - toordinal start >? 365)%Z eqn:Hhi;
    destruct (toordinal end_ - toordinal start <? 0)%Z eqn:Hlo;
    destruct (0 <=? toordinal end_ - toordinal start)%Z eqn:Hlo';
    destruct (toordinal end_ - toordinal start <=? 365)%Z eqn:Hhi';
    simpl; try lia;
    try (eexists; split; [reflexivity | reflexivity]);
    try (eexists; eexists; now repeat rewrite <- app_assoc).
  - (* create_review_answer *)
    destruct (find (review_has_id_and_center rid (center_id c)) (reviews d))
      as [r|] eqn:Hr; simpl;
      [ | eexists; split; [now repeat rewrite <- app_assoc | reflexivity] ].
    destruct (find_review_has_ids _ _ _ _ Hr) as [Hrid _]. rewrite Hrid.
    destruct (find (answer_of_review rid) (answers d)); simpl.
    + eexists; split; [now repeat rewrite <- app_assoc | reflexivity].
    + eexists; eexists; now repeat rewrite <- app_assoc.
  - (* update_review_answer *)
    destruct (find (review_has_id_and_center rid (center_id c)) (reviews d))
      as [r|] eqn:Hr; simpl;
      [ | eexists; split; [now repeat rewrite <- app_assoc | reflexivity] ].
    destruct (find_review_has_ids _ _ _ _ Hr) as [Hrid _]. rewrite Hrid.
    destruct (find (answer_of_review rid) (answers d)) as [a|] eqn:Ha; simpl.
    + rewrite (find_answer_of_review _ _ _ Ha).
      eexists; eexists; now repeat rewrite <- app_assoc.
    + eexists; split; [now repeat rewrite <- app_assoc | reflexivity].
  - (* delete_review_answer *)
    destruct (find (review_has_id_and_center rid (center_id c)) (reviews d))
      as [r|] eqn:Hr; simpl;
      [ | eexists; split; [now repeat rewrite <- app_assoc | reflexivity] ].
    destruct (find_review_has_ids _ _ _ _ Hr) as [Hrid _]. rewrite Hrid.
    destruct (find (answer_of_review rid) (answers d)) as [a|] eqn:Ha; simpl.
    + rewrite (find_answer_of_review _ _ _ Ha).
      eexists; eexists; now repeat rewrite <- app_assoc.
    + eexists; split; [now repeat rewrite <- app_assoc | reflexivity].
  - (* find_reviews_summary_by_center *)
    destruct (ReviewService.scan_reviews _) as [flags tags].
    eexists; eexists; now repeat rewrite <- app_assoc.
Qed.

(** C3: in each of the five operations, a requester who is not the owner
    of the (existing) center gets UnauthorizedException, and the center
    lookup is the only call made: the rows are untouched and nothing is
    queried after the check. Listing reviews is the first instance. *)
Theorem not_owner_is_unauthorized (req : Request) (w : World) (c : Center) :
  center_of (db w) (center_id_of req) = Some c ->
  String.eqb (center_owner_id c) (Auth.id (subject_of req)) = false ->
  call req w =
    (Raise (UnauthorizedException NOT_ACCESSIBLE "암장 관리자가 아닙니다."),
     {| db := db w;
        calls := calls w ++ [Center_find_by_id (center_id_of req)] |})
  /\
  (forall subject params cid start end_ tg ia,
     req = Find_reviews_by_center subject params cid start end_ tg ia ->
     exists e w',
       ReviewService.find_reviews_by_center subject params cid start end_ tg ia w
         = (Raise e, w') /\
       kind_of e = Unauthorized /\ db w' = db w).
Proof.
  destruct w as [d cs]. unfold center_of. simpl. intros Hc Hown. split.
  - destruct req; simpl in Hc, Hown |- *;
      run_service; unfold is_owner; rewrite Hc; simpl; rewrite Hown; simpl;
      reflexivity.
  - intros subject params cid start end_ tg ia ->. simpl in Hc, Hown.
    run_service; unfold is_owner; rewrite Hc; simpl; rewrite Hown; simpl.
    eexists; eexists; split; [reflexivity | split; reflexivity].
Qed.

(** C4: an exception raised by an operation is of the not-found,
    unauthorized or bad-request kind; it is the exception of a guard of
    the operation that is violated while all guards before it hold; the
    rows are as before and every call made up to the raise is a read.
    Each of the three kinds is raised by some call. *)
Theorem errors_come_from_first_violated_guard :
  (forall (req : Request) (w w' : World) (e : Exception),
     call req w = (Raise e, w') ->
     (kind_of e = NotFound \/ kind_of e = Unauthorized \/ kind_of e = BadRequest) /\
     (exists passed g rest,
        guards req (db w) = passed ++ g :: rest /\
        forallb holds passed = true /\ holds g = false /\ e = otherwise g) /\
     db w' = db w /\
     read_only (added w w') = true)
  /\
  (forall k, k <> Conflict ->
     exists req w w' e, call req w = (Raise e, w') /\ kind_of e = k).
Proof.
  split.
  - intros req [d cs] w' e Hrun.
    pose proof (call_by_guards req d cs) as Hg.
    destruct (first_violated (guards req d)) as [g|] eqn:Hfirst.
    + destruct Hg as (reads & Hcall & Hreads).
      rewrite Hrun in Hcall. inversion Hcall; subst e w'; clear Hcall.
      destruct (first_violated_split _ _ Hfirst) as (passed & rest & Hsplit & Hp & Hv).
      rewrite added_app. simpl. repeat split; auto.
      * destruct (otherwise g); simpl; auto.
      * exists passed, g, rest. auto.
    + destruct Hg as (r & made & Hcall).
      rewrite Hrun in Hcall. discriminate.
  - intros k Hk. destruct k.
    + exists (Find_reviews_summary_by_center Sample.owner "nowhere"), Sample.world.
      eexists; eexists; split; [reflexivity | reflexivity].
    + exists (Find_reviews_summary_by_center Sample.stranger "center-1"), Sample.world.
      eexists; eexists; split; [reflexivity | reflexivity].
    + exists (Find_reviews_by_center Sample.owner {| page := 1; size := 10 |}
                "center-1" (Sample.day 10) (Sample.day 0) None None),
             Sample.world.
      eexists; eexists; split; [reflexivity | reflexivity].
    + now elim Hk.
Qed.

(** ** Counting answers *)

Lemma find_none_filter_nil {A} (p : A -> bool) (l : list A) :
  find p l = None -> filter p l = [].
Proof.
  induction l as [|x l IH]; simpl; auto.
  destruct (p x); [discriminate | auto].
Qed.

Lemma replace_first_keeps_count {A} (p q : A -> bool) (f : A -> A) (l : list A) :
  (forall x, q (f x) = q x) ->
  length (filter q (replace_first p f l)) = length (filter q l).
Proof.
  intros Hf. induction l as [|x l IH]; simpl; auto.
  destruct (p x); simpl.
  - rewrite Hf. destruct (q x); reflexivity.
  - destruct (q x); simpl; auto.
Qed.

Lemma remove_first_lowers_count {A} (p q : A -> bool) (l : list A) :
  (length (filter q (remove_first p l)) <= length (filter q l))%nat.
Proof.
  induction l as [|x l IH]; simpl; auto.
  destruct (p x); simpl.
  - destruct (q x); simpl; lia.
  - destruct (q x); simpl; lia.
Qed.

(** An operation whose guards hold leaves the number of answers of a
    review as it was or lower, except that creating an answer for a
    review without one takes that review from none to one. *)
Lemma effect_on_answers (req : Request) (d : DB) (q : string) :
  first_violated (guards req d) = None ->
  (answers_for (effect req d) q <= answers_for d q)%nat \/
  (answers_for d q = 0%nat /\ answers_for (effect req d) q = 1%nat /\
   exists subject dto cid, req = Create_review_answer subject dto cid q).
Proof.
  unfold answers_for.
  destruct req as [subject params cid start end_ tg ia
                  | subject dto cid rid | subject dto cid rid
                  | subject cid rid | subject cid]; simpl; auto.
  - (* create *)
    unfold first_violated. simpl.
    destruct (present (center_of d cid)); simpl; [ | discriminate].
    destruct (owned_by d cid subject); simpl; [ | discriminate].
    destruct (review_of d cid rid) as [r|] eqn:Hr; simpl; [ | discriminate].
    destruct (answer_of d rid) as [a|] eqn:Ha; simpl; [discriminate | ].
    intros _. rewrite filter_app, length_app.
    destruct (find_review_has_ids _ _ _ _ Hr) as [Hrid _].
    assert (Hsel : answer_of_review q
                     {| content := answer_content dto; review := r |}
                   = String.eqb rid q)
      by (unfold answer_of_review; simpl; now rewrite Hrid).
    simpl. rewrite Hsel.
    destruct (String.eqb rid q) eqn:Hq; simpl.
    + apply String.eqb_eq in Hq. subst q. right.
      unfold answer_of in Ha. rewrite (find_none_filter_nil _ _ Ha). simpl.
      repeat split; eauto.
    + left. lia.
  - (* update *)
    intros _. left.
    rewrite replace_first_keeps_count; [lia | reflexivity].
  - (* delete *)
    intros _. left. apply remove_first_lowers_count.
Qed.

(** C7: no operation breaks the invariant that a review has at most one
    answer. The number of answers of a review only rises when
    create_review_answer is called for that review while it has none,
    and then it rises to one. *)
Theorem operations_keep_one_answer_per_review
    (req : Request) (w w' : World) (out : Outcome Response) :
  call req w = (out, w') ->
  (one_answer_per_review (db w) -> one_answer_per_review (db w')) /\
  (forall rid,
     (answers_for (db w) rid < answers_for (db w') rid)%nat ->
     answers_for (db w) rid = 0%nat /\ answers_for (db w') rid = 1%nat /\
     exists subject dto cid, req = Create_review_answer subject dto cid rid).
Proof.
  destruct w as [d cs]. simpl. intros Hrun.
  pose proof (call_by_guards req d cs) as Hg.
  destruct (first_violated (guards req d)) as [g|] eqn:Hfirst.
  - destruct Hg as (reads & Hcall & _).
    rewrite Hrun in Hcall. inversion Hcall; subst. simpl.
    split; [auto | intros rid Hlt; lia].
  - destruct Hg as (r & made & Hcall).
    rewrite Hrun in Hcall. inversion Hcall; subst. simpl. split.
    + intros Hinv rid.
      destruct (effect_on_answers req d rid Hfirst) as [Hle | (_ & H1 & _)].
      * specialize (Hinv rid). lia.
      * lia.
    + intros rid Hlt.
      destruct (effect_on_answers req d rid Hfirst) as [Hle | H]; [lia | exact H].
Qed.

(** C8: for the owner of an existing center, find_reviews_by_center
    raises the bad-request error exactly when the span in days from start
    to end is above 365 or below 0, and otherwise goes on to query the
    reviews. For a requester who is not the owner the error is the
    unauthorized one whatever the range. *)
Theorem find_reviews_by_center_date_range
    (subject : Auth.RequestUser) (params : Params) (cid : string)
    (start end_ : date) (tg : option string) (ia : option bool)
    (w : World) (c : Center) :
  center_of (db w) cid = Some c ->
  let run := ReviewService.find_reviews_by_center
               subject params cid start end_ tg ia w in
  let span := days_between end_ start in
  (is_owner c (Auth.id subject) = true ->
     ((exists e, fst run = Raise e) <-> (span > 365 \/ span < 0)%Z) /\
     ((span > 365 \/ span < 0)%Z ->
        run = (Raise (BadRequestException WRONG_DATE_RANGE "잘못된 날짜 범위입니다."),
               {| db := db w; calls := calls w ++ [Center_find_by_id cid] |})) /\
     (~ (span > 365 \/ span < 0)%Z ->
        run = (Return (paginate
                         (select_page (reviews (db w)) params cid start end_ tg ia)),
               {| db := db w;
                  calls := calls w ++
                    [Center_find_by_id cid;
                     Review_find_reviews_by_center params cid start end_ tg ia] |})))
  /\
  (is_owner c (Auth.id subject) = false ->
     exists e w', run = (Raise e, w') /\ kind_of e = Unauthorized).
Proof.
  destruct w as [d cs]. unfold center_of. simpl. intros Hc.
  run_service. rewrite Hc. simpl. split.
  - intros Hown. rewrite Hown. simpl.
    remember (days_between end_ start) as span eqn:Hspan.
    destruct (span >? 365)%Z eqn:Hhi; destruct (span <? 0)%Z eqn:Hlo; simpl;
      rewrite Z.gtb_ltb in Hhi;
      rewrite ?Z.ltb_lt, ?Z.ltb_ge in Hhi, Hlo;
      (split;
       [ split;
         [ intros [e He]; first [discriminate | lia]
         | intros Hbad; first [now eexists | exfalso; lia] ]
       | split;
         [ intros Hbad; first [reflexivity | exfalso; lia]
         | intros Hok;
           first [now repeat rewrite <- app_assoc
                 | exfalso; apply Hok; lia] ] ]).
  - intros Hown. rewrite Hown. simpl.
    eexists; eexists; split; reflexivity.
Qed.

End ReviewServiceProperties.

(* ===================================================================== *)
(** * Properties of Counter *)
(* ===================================================================== *)

Section CounterFacts.

Import Collections.

Context {K : Type} (eqb : K -> K -> bool).
Hypothesis eqb_eq : forall a b, eqb a b = true <-> a = b.
Variable dec : forall a b : K, {a = b} + {a <> b}.

Lemma eqb_refl_true (k : K) : eqb k k = true.
Proof. now apply eqb_eq. Qed.

Lemma get_incr (k k' : K) (c : counter) :
  get eqb (incr eqb k c) k' =
  if eqb k k' then S (get eqb c k') else get eqb c k'.
Proof.
  induction c as [|[k0 n] c IH]; simpl.
  - reflexivity.
  - destruct (eqb k0 k) eqn:H0; simpl.
    + apply eqb_eq in H0. subst k0. destruct (eqb k k'); reflexivity.
    + rewrite IH. destruct (eqb k k') eqn:Hk; [ | reflexivity].
      apply eqb_eq in Hk. subst k'. now rewrite H0.
Qed.

Lemma get_fold_incr (l : list K) (c : counter) (k : K) :
  get eqb (fold_left (fun c x => incr eqb x c) l c) k =
  (get eqb c k + count_occ dec l k)%nat.
Proof.
  revert c. induction l as [|x l IH]; intros c; simpl.
  - lia.
  - rewrite IH, get_incr.
    destruct (dec x k) as [->|Hne].
    + rewrite eqb_refl_true. lia.
    + destruct (eqb x k) eqn:Hx; [ | reflexivity].
      apply eqb_eq in Hx. contradiction.
Qed.

(** A Counter answers with the number of occurrences. *)
Lemma get_Counter (l : list K) (k : K) :
  get eqb (Counter eqb l) k = count_occ dec l k.
Proof. unfold Counter. now rewrite get_fold_incr. Qed.

Lemma keys_incr (k k' : K) (c : counter) :
  In k' (map fst (incr eqb k c)) <-> k' = k \/ In k' (map fst c).
Proof.
  induction c as [|[k0 n] c IH]; simpl.
  - intuition.
  - destruct (eqb k0 k) eqn:H0; simpl.
    + apply eqb_eq in H0. subst k0. intuition.
    + rewrite IH. intuition.
Qed.

Lemma keys_incr_NoDup (k : K) (c : counter) :
  NoDup (map fst c) -> NoDup (map fst (incr eqb k c)).
Proof.
  induction c as [|[k0 n] c IH]; simpl; intros Hnd.
  - constructor; [intros [] | constructor].
  - inversion Hnd as [|? ? Hnotin Hnd']; subst.
    destruct (eqb k0 k) eqn:H0; simpl.
    + constructor; assumption.
    + constructor; [ | now apply IH].
      rewrite keys_incr. intros [Heq | Hin]; [ | contradiction].
      subst k0. rewrite eqb_refl_true in H0. discriminate.
Qed.

Lemma keys_fold_incr (l : list K) (c : counter) :
  (NoDup (map fst c) ->
   NoDup (map fst (fold_left (fun c x => incr eqb x c) l c))) /\
  (forall k, In k (map fst (fold_left (fun c x => incr eqb x c) l c)) <->
             In k (map fst c) \/ In k l).
Proof.
  revert c. induction l as [|x l IH]; intros c; simpl.
  - split; [auto | intuition].
  - destruct (IH (incr eqb x c)) as [IHnd IHin]. split.
    + intros Hnd. apply IHnd. now apply keys_incr_NoDup.
    + intros k. rewrite IHin, keys_incr. intuition.
Qed.

Lemma in_counter_get (c : counter) (k : K) (n : nat) :
  NoDup (map fst c) -> In (k, n) c -> get eqb c k = n.
Proof.
  induction c as [|[k0 n0] c IH]; simpl; intros Hnd Hin; [contradiction | ].
  inversion Hnd as [|? ? Hnotin Hnd']; subst.
  destruct Hin as [Heq | Hin].
  - inversion Heq; subst. now rewrite eqb_refl_true.
  - destruct (eqb k0 k) eqn:H0.
    + apply eqb_eq in H0. subst k0.
      elim Hnotin. apply in_map_iff. exists (k, n). auto.
    + now apply IH.
Qed.

Lemma key_in_counter (c : counter) (k : K) :
  In k (map fst c) -> In (k, get eqb c k) c.
Proof.
  induction c as [|[k0 n0] c IH]; simpl; intros Hin; [contradiction | ].
  destruct (eqb k0 k) eqn:H0.
  - apply eqb_eq in H0. subst k0. now left.
  - destruct Hin as [Heq | Hin].
    + subst k0. rewrite eqb_refl_true in H0. discriminate.
    + right. now apply IH.
Qed.

(** The items of a Counter: one pair per distinct element, holding the
    number of its occurrences. *)
Lemma Counter_items (l : list K) :
  NoDup (map fst (items (Counter eqb l))) /\
  (forall k n, In (k, n) (items (Counter eqb l)) <->
               In k l /\ n = count_occ dec l k).
Proof.
  unfold items.
  destruct (keys_fold_incr l []) as [Hnd Hkeys].
  specialize (Hnd (NoDup_nil _)). fold (Counter eqb l) in Hnd, Hkeys.
  split; [exact Hnd | ].
  intros k n. rewrite <- get_Counter. split.
  - intros Hin. split.
    + assert (Hk : In k (map fst (Counter eqb l)))
        by (apply in_map_iff; exists (k, n); auto).
      apply Hkeys in Hk. destruct Hk as [[] | Hk]. exact Hk.
    + symmetry. now apply in_counter_get.
  - intros [Hin ->]. apply key_in_counter. apply Hkeys. now right.
Qed.

End CounterFacts.

(* ===================================================================== *)
(** * The review summary *)
(* ===================================================================== *)

Section SummaryProperties.

Import Schema Error ReviewModel Run Props.

Lemma scan_reviews_from (rs : list Review)
    (flags : list bool) (tags : list (list ReviewTag)) :
  fold_left
    (fun acc review =>
       (fst acc ++ [match answer_id review with None => false | Some _ => true end],
        snd acc ++ [tag review]))
    rs (flags, tags)
  = (flags ++ map is_answered rs, tags ++ map tag rs).
Proof.
  revert flags tags. induction rs as [|r rs IH]; intros flags tags; simpl.
  - now rewrite !app_nil_r.
  - rewrite IH. simpl. rewrite <- !app_assoc. simpl.
    unfold is_answered at 2, present. destruct (answer_id r); reflexivity.
Qed.

Lemma scan_reviews_maps (rs : list Review) :
  ReviewService.scan_reviews rs = (map is_answered rs, map tag rs).
Proof. unfold ReviewService.scan_reviews. now rewrite scan_reviews_from. Qed.

Lemma sum_lists_from {A} (ls : list (list A)) (acc : list A) :
  fold_left (fun acc l => acc ++ l) ls acc = acc ++ concat ls.
Proof.
  revert acc. induction ls as [|l ls IH]; intros acc; simpl.
  - now rewrite app_nil_r.
  - rewrite IH. now rewrite app_assoc.
Qed.

Lemma sum_lists_concat {A} (ls : list (list A)) :
  ReviewService.sum_lists ls = concat ls.
Proof. unfold ReviewService.sum_lists. now rewrite sum_lists_from. Qed.

Lemma count_flag (f : Review -> bool) (rs : list Review) (b : bool) :
  count_occ bool_dec (map f rs) b =
  length (filter (fun r => Bool.eqb (f r) b) rs).
Proof.
  induction rs as [|r rs IH]; simpl; [reflexivity | ].
  destruct (bool_dec (f r) b) as [Heq | Hne].
  - rewrite Heq, Bool.eqb_reflx. simpl. now rewrite IH.
  - destruct (Bool.eqb (f r) b) eqn:Hb.
    + apply Bool.eqb_prop in Hb. contradiction.
    + exact IH.
Qed.

Lemma bool_eqb_eq (a b : bool) : Bool.eqb a b = true <-> a = b.
Proof. split; [apply Bool.eqb_prop | intros ->; apply Bool.eqb_reflx]. Qed.

(** C5: for a center the requester owns, find_reviews_summary_by_center
    returns, over all reviews of the center, the number of reviews with
    an answer reference and the number without, and for each tag word
    of those reviews exactly one entry, holding the number of times the
    word occurs in the reviews' tag lists taken together. *)
Theorem review_summary_counts
    (subject : Auth.RequestUser) (cid : string) (w : World) (c : Center) :
  center_of (db w) cid = Some c ->
  is_owner c (Auth.id subject) = true ->
  let rs := filter (review_in_center cid) (reviews (db w)) in
  let words := map word (concat (map tag rs)) in
  exists dto w',
    ReviewService.find_reviews_summary_by_center subject cid w = (Return dto, w') /\
    db w' = db w /\
    summary_center dto = c /\
    Collections.get Bool.eqb (review_by_answer dto) true
      = length (filter (fun r => present (answer_id r)) rs) /\
    Collections.get Bool.eqb (review_by_answer dto) false
      = length (filter (fun r => negb (present (answer_id r))) rs) /\
    (forall t n,
       In {| tag_word := t; count := n |} (review_count_by_tag dto) <->
       In t words /\ n = count_occ string_dec words t) /\
    NoDup (map tag_word (review_count_by_tag dto)).
Proof.
  destruct w as [d cs]. unfold center_of. simpl. intros Hc Hown.
  pose proof (find_center_has_id _ _ _ Hc) as Hid.
  cbv [ReviewService.find_reviews_summary_by_center
       CenterRepository.find_by_id ReviewRepository.find_all_by_center
       bind ret raise log rows or_raise raise_if db calls].
  rewrite Hc. simpl. rewrite Hown. simpl. rewrite Hid.
  rewrite scan_reviews_maps, sum_lists_concat.
  set (rs := filter (review_in_center cid) (reviews d)).
  set (words := map word (concat (map tag rs))).
  eexists; eexists. split; [reflexivity | ]. simpl.
  split; [reflexivity | ]. split; [reflexivity | ].
  split; [ | split; [ | split]].
  - rewrite (get_Counter Bool.eqb bool_eqb_eq bool_dec), count_flag.
    apply (f_equal (@length Review)), filter_ext. intros r.
    unfold is_answered. destruct (present (answer_id r)); reflexivity.
  - rewrite (get_Counter Bool.eqb bool_eqb_eq bool_dec), count_flag.
    apply (f_equal (@length Review)), filter_ext. intros r.
    unfold is_answered. destruct (present (answer_id r)); reflexivity.
  - intros t n.
    destruct (Counter_items String.eqb String.eqb_eq string_dec words)
      as [_ Hitems].
    rewrite <- Hitems. rewrite in_map_iff. split.
    + intros [[t' n'] [Heq Hin]]. inversion Heq; subst. exact Hin.
    + intros Hin. exists (t, n). auto.
  - destruct (Counter_items String.eqb String.eqb_eq string_dec words)
      as [Hnd _].
    rewrite map_map.
    erewrite map_ext; [exact Hnd | ]. intros [t n]. reflexivity.
Qed.

End SummaryProperties.

(* ===================================================================== *)
(** * Properties of the request models *)
(* ===================================================================== *)

Section CenterModelProperties.

Import PyStr Re CenterModel ModelProps.

Context `{U : UnicodeDb}.

(** ** The time pattern *)

Lemma run_hour_group (pos : nat) (s : str) (k : nat -> str -> bool) :
  run hour_group pos s k =
  match s with
  | h1 :: h2 :: s' => hour_ok h1 h2 && k (S (S pos)) s'
  | _ => false
  end.
Proof.
  unfold hour_group, hour_ok.
  destruct s as [|h1 [|h2 s']]; cbn [run]; [reflexivity | | ].
  - destruct (h1 =? chr "0")%N, (h1 =? chr "1")%N, (h1 =? chr "2")%N;
      reflexivity.
  - generalize (k (S (S pos)) s') as rest. intros rest.
    destruct (h1 =? chr "0")%N, (h1 =? chr "1")%N, (h1 =? chr "2")%N,
             (isdecimal h2), ((chr "0" <=? h2)%N && (h2 <=? chr "3")%N), rest;
      reflexivity.
Qed.

Lemma run_minute_group (pos : nat) (s : str) (k : nat -> str -> bool) :
  run minute_group pos s k =
  match s with
  | m1 :: m2 :: s' => minute_ok m1 m2 && k (S (S pos)) s'
  | _ => false
  end.
Proof.
  unfold minute_group, minute_ok.
  destruct s as [|m1 [|m2 s']]; cbn [run]; [reflexivity | | ].
  - destruct (m1 =? chr "0")%N, ((chr "0" <=? m1)%N && (m1 <=? chr "5")%N);
      reflexivity.
  - generalize (k (S (S pos)) s') as rest. intros rest.
    destruct (N.eqb_spec m1 (chr "0")) as [-> | Hm1].
    + (* first alternative: 0 then 1-9, which the second one covers *)
      change ((chr "0" <=? chr "0")%N && (chr "0" <=? chr "5")%N) with true.
      destruct ((chr "1" <=? m2)%N && (m2 <=? chr "9")%N) eqn:Hm2.
      * apply andb_true_iff in Hm2. destruct Hm2 as [Hlo Hhi].
        apply N.leb_le in Hlo, Hhi. unfold chr in Hlo, Hhi. simpl in Hlo, Hhi.
        rewrite (isdecimal_ascii m2) by lia.
        destruct rest; reflexivity.
      * reflexivity.
    + simpl. now rewrite andb_assoc.
Qed.

(** The validators of start_time and end_time accept exactly the strings
    of [time_accepted]. *)
Lemma match_time_pattern (s : str) :
  match_ time_pattern s = time_accepted s.
Proof.
  unfold match_, time_pattern, time_accepted.
  cbn [run Nat.eqb andb]. rewrite run_hour_group.
  destruct s as [|h1 [|h2 s]]; [reflexivity | reflexivity | ].
  cbn [run].
  destruct s as [|c s]; [now rewrite andb_false_r | ].
  rewrite run_minute_group.
  destruct s as [|m1 [|m2 s]];
    [now rewrite !andb_false_r | now rewrite !andb_false_r | ].
  cbn [run].
  destruct s as [|nl [|x s]].
  - now rewrite andb_true_r, !andb_assoc.
  - now rewrite andb_true_r, !andb_assoc.
  - now rewrite !andb_false_r.
Qed.

(** Every HH:MM time of day is accepted. *)
Lemma hh_mm_accepted (s : str) :
  is_hh_mm s = true -> validate_start_time s = Accept s.
Proof.
  unfold validate_start_time. rewrite match_time_pattern.
  destruct s as [|h1 [|h2 [|c [|m1 [|m2 [|x s]]]]]]; try discriminate.
  unfold is_hh_mm, time_accepted, hour_ok, minute_ok, ascii_digit, digit_value.
  unfold chr. simpl N_of_ascii.
  rewrite !andb_true_iff, !N.leb_le. intros H.
  destruct H as [[[[[[[H1a H1b] [H2a H2b]] Hc] [H3a H3b]] [H4a H4b]] Hh] Hm].
  rewrite Hc, (isdecimal_ascii h2), (isdecimal_ascii m2) by lia.
  replace (48 <=? m1)%N with true by (symmetry; apply N.leb_le; lia).
  replace (m1 <=? 53)%N with true by (symmetry; apply N.leb_le; lia).
  replace (48 <=? h2)%N with true by (symmetry; apply N.leb_le; lia).
  destruct (N.eqb_spec h1 48); [reflexivity | ].
  destruct (N.eqb_spec h1 49); [reflexivity | ].
  destruct (N.eqb_spec h1 50);
    [ | exfalso; lia ].
  replace (h2 <=? 51)%N with true by (symmetry; apply N.leb_le; lia).
  reflexivity.
Qed.

(** C6 (where the code departs from it): the operating-time model is
    built from a start_time made of 23:01 and a newline, which is not an
    HH:MM time of day. The [$] of the pattern also holds before a newline
    that ends the string, so the validator lets it through. *)
Theorem operating_time_accepts_trailing_newline :
  let raw := {| day_of_week := py "월";
                start_time := py "23:01" ++ [10%N];
                end_time := py "18:00" |} in
  CenterOperatingTimeDto_validate raw = Parsed raw /\
  is_hh_mm (start_time raw) = false /\
  is_hh_mm (removelast (start_time raw)) = true.
Proof.
  cbv zeta. split; [ | split; reflexivity].
  unfold CenterOperatingTimeDto_validate, validate_start_time, validate_end_time.
  cbn [day_of_week start_time end_time].
  rewrite !match_time_pattern.
  change (validate_day_of_week (py "월")) with (Accept (py "월")).
  unfold time_accepted, hour_ok, minute_ok. simpl.
  repeat match goal with
         | |- context [isdecimal ?c] => rewrite (isdecimal_ascii c) by lia
         end.
  reflexivity.
Qed.

(** ** The rest of the validation-level invariants *)

(** day_of_week: accepted exactly when it is one of the eight listed
    values. *)
Lemma validate_day_of_week_spec (value : str) :
  (mem value days_of_week = true -> validate_day_of_week value = Accept value) /\
  (mem value days_of_week = false ->
   exists e, validate_day_of_week value = Reject e).
Proof.
  unfold validate_day_of_week. split; intros ->; simpl; eauto.
Qed.

(** CenterFeeDto: built exactly when the name has 2 to 50 characters and
    price and count are not negative; the model then is the input. *)
Lemma CenterFeeDto_validate_spec (raw : CenterFeeDto) :
  (forall m, CenterFeeDto_validate raw = Parsed m ->
     m = raw /\ (2 <= len (name m) <= 50)%Z /\
     (0 <= price m)%Z /\ (0 <= CenterModel.count m)%Z) /\
  ((len (name raw) < 2 \/ len (name raw) > 50 \/
    price raw < 0 \/ CenterModel.count raw < 0)%Z ->
   exists errors, CenterFeeDto_validate raw = ValidationError errors /\
                  errors <> []).
Proof.
  destruct raw as [n p c].
  unfold CenterFeeDto_validate, validate_name, validate_price, validate_count.
  cbn [name price CenterModel.count].
  destruct (len n <? 2)%Z eqn:H1; destruct (len n >? 50)%Z eqn:H2;
  destruct (p <? 0)%Z eqn:H3; destruct (c <? 0)%Z eqn:H4;
    rewrite Z.gtb_ltb in H2;
    rewrite ?Z.ltb_lt, ?Z.ltb_ge in H1, H2, H3, H4; simpl;
    (split;
     [ intros m Hm; first [discriminate | inversion Hm; subst m; simpl; lia
                          | inversion Hm; subst m; simpl; repeat split; lia]
     | intros Hbad; first [ eexists; split; [reflexivity | discriminate]
                          | exfalso; lia ] ]).
Qed.

(** ** youtube_code *)

(** C9: for a youtube_code that starts with [@] the validator returns
    None; whatever it returns is None, so a validated model never keeps a
    code; a non-null code that does not start with [@] is rejected with
    an error. *)
Theorem validate_youtube_code_returns_none :
  (forall v, startswith v (py "@") = true ->
             validate_youtube_code (Some v) = Accept None) /\
  (forall value r, validate_youtube_code value = Accept r -> r = None) /\
  (forall v, startswith v (py "@") = false ->
             exists e, validate_youtube_code (Some v) = Reject e).
Proof.
  unfold validate_youtube_code. split; [ | split].
  - intros [|c v]; simpl; [discriminate | ].
    rewrite andb_true_r. now intros ->.
  - intros [[|c v]|] r; simpl.
    + discriminate.
    + destruct (c =? 64)%N; simpl; [ | discriminate].
      intros H; now inversion H.
    + intros H; now inversion H.
  - intros [|c v]; simpl; [eauto | ].
    rewrite andb_true_r. intros ->. simpl. eauto.
Qed.

End CenterModelProperties.

(* ===================================================================== *)
(** * The properties on the sample data *)
(* ===================================================================== *)

Section Examples.

Import Schema Error ReviewModel PyDate Run Api Props.
Import Sample.

(** The owner answers the open review: one row is saved and returned. *)
Lemma create_review_answer_contract_example :
  let run := ReviewService.create_review_answer
               owner new_answer "center-1" "review-1" world in
  let row := {| content := "new answer"; review := open_review |} in
  run = (fst run, snd run) /\
  (fst run = Return {| resp_content := "new answer"; resp_review_id := "review-1" |} /\
   answers (db (snd run)) = [old_answer; row] /\
   filter is_write (added world (snd run)) = [ReviewAnswer_save row]).
Proof.
  intros run row. split; [reflexivity | ].
  destruct (create_review_answer_contract
              owner new_answer "center-1" "review-1" world
              (snd run) (fst run) eq_refl)
    as [_ Hsaved].
  destruct (Hsaved open_review) as (Hout & Hdb & Hsave);
    [ discriminate | reflexivity | reflexivity | reflexivity | ].
  split; [exact Hout | split; [ | exact Hsave]].
  exact (f_equal answers Hdb).
Defined.

(** C2 as the specification words it fails: the review with an answer
    is refused with an exception of the not-found kind, not a conflict. *)
Lemma already_answered_is_not_a_conflict :
  center_of (db world) "center-1" <> None /\
  owned_by (db world) "center-1" owner = true /\
  review_of (db world) "center-1" "review-2" <> None /\
  answer_of (db world) "review-2" <> None /\
  ~ (exists e w',
       ReviewService.create_review_answer
         owner new_answer "center-1" "review-2" world = (Raise e, w') /\
       kind_of e = Conflict).
Proof.
  repeat split; try discriminate.
  intros (e & w' & Hrun & Hkind).
  vm_compute in Hrun. inversion Hrun; subst e. discriminate.
Qed.

Lemma create_review_answer_already_answered_example :
  (center_of (db world) "center-1" <> None /\
   owned_by (db world) "center-1" owner = true /\
   review_of (db world) "center-1" "review-2" <> None /\
   answer_of (db world) "review-2" <> None) /\
  exists e w',
    ReviewService.create_review_answer
      owner new_answer "center-1" "review-2" world = (Raise e, w') /\
    e = NotFoundException ROW_ALREADY_EXIST "이미 작성된 답변이 존재합니다." /\
    kind_of e = NotFound /\ code_of e = ROW_ALREADY_EXIST /\
    db w' = db world.
Proof.
  split; [repeat split; discriminate | ].
  apply (create_review_answer_already_answered
           owner new_answer "center-1" "review-2" world);
    [discriminate | reflexivity | discriminate | discriminate].
Defined.

(** A stranger lists the reviews of the gym. *)
Lemma not_owner_is_unauthorized_example :
  let req := Find_reviews_by_center stranger {| page := 1; size := 10 |}
               "center-1" (day 0) (day 30) None None in
  (center_of (db world) (center_id_of req) = Some gym /\
   String.eqb (center_owner_id gym) (Auth.id (subject_of req)) = false) /\
  call (RP := whole_list) req world =
    (Raise (UnauthorizedException NOT_ACCESSIBLE "암장 관리자가 아닙니다."),
     {| db := store; calls := [Center_find_by_id "center-1"] |}).
Proof.
  cbv zeta. split; [split; reflexivity | ].
  apply (not_owner_is_unauthorized (RP := whole_list)
           (Find_reviews_by_center stranger {| page := 1; size := 10 |}
              "center-1" (day 0) (day 30) None None)
           world gym eq_refl eq_refl).
Defined.

(** The owner asks for a range that ends before it starts. *)
Lemma errors_come_from_first_violated_guard_example :
  let req := Find_reviews_by_center owner {| page := 1; size := 10 |}
               "center-1" (day 30) (day 0) None None in
  let e := BadRequestException WRONG_DATE_RANGE "잘못된 날짜 범위입니다." in
  let w' := {| db := store; calls := [Center_find_by_id "center-1"] |} in
  call (RP := whole_list) req world = (Raise e, w') /\
  (kind_of e = NotFound \/ kind_of e = Unauthorized \/ kind_of e = BadRequest) /\
  (exists passed g rest,
     guards req (db world) = passed ++ g :: rest /\
     forallb holds passed = true /\ holds g = false /\ e = otherwise g) /\
  db w' = db world /\
  read_only (added world w') = true.
Proof.
  cbv zeta. split; [reflexivity | ].
  apply (proj1 (errors_come_from_first_violated_guard (RP := whole_list))
           (Find_reviews_by_center owner {| page := 1; size := 10 |}
              "center-1" (day 30) (day 0) None None)
           world _ _ eq_refl).
Defined.

(** The summary of the gym: one answered and one open review; "kind"
    twice and "clean" once. *)
Lemma review_summary_counts_example :
  (center_of (db world) "center-1" = Some gym /\
   is_owner gym (Auth.id owner) = true) /\
  exists dto w',
    ReviewService.find_reviews_summary_by_center owner "center-1" world
      = (Return dto, w') /\
    db w' = db world /\
    summary_center dto = gym /\
    Collections.get Bool.eqb (review_by_answer dto) true = 1%nat /\
    Collections.get Bool.eqb (review_by_answer dto) false = 1%nat /\
    (forall t n,
       In {| tag_word := t; count := n |} (review_count_by_tag dto) <->
       In t ["kind"; "clean"; "kind"] /\
       n = count_occ string_dec ["kind"; "clean"; "kind"] t) /\
    NoDup (map tag_word (review_count_by_tag dto)).
Proof.
  split; [split; reflexivity | ].
  apply (review_summary_counts owner "center-1" world gym eq_refl eq_refl).
Defined.

(** Answering the open review keeps every review at one answer at most. *)
Lemma operations_keep_one_answer_per_review_example :
  let req := Create_review_answer owner new_answer "center-1" "review-1" in
  let run := call (RP := whole_list) req world in
  run = (fst run, snd run) /\
  (one_answer_per_review (db world) -> one_answer_per_review (db (snd run))) /\
  (forall rid,
     (answers_for (db world) rid < answers_for (db (snd run)) rid)%nat ->
     answers_for (db world) rid = 0%nat /\
     answers_for (db (snd run)) rid = 1%nat /\
     exists subject dto cid, req = Create_review_answer subject dto cid rid).
Proof.
  cbv zeta. split; [reflexivity | ].
  apply (operations_keep_one_answer_per_review (RP := whole_list)
           (Create_review_answer owner new_answer "center-1" "review-1")
           world _ _ eq_refl).
Defined.

(** A range of 366 days is refused, one of 365 days is queried. *)
Lemma find_reviews_by_center_date_range_example :
  center_of (db world) "center-1" = Some gym /\
  ReviewService.find_reviews_by_center (RP := whole_list)
    owner {| page := 1; size := 10 |} "center-1" (day 0) (day 366) None None world
  = (Raise (BadRequestException WRONG_DATE_RANGE "잘못된 날짜 범위입니다."),
     {| db := store; calls := [Center_find_by_id "center-1"] |}) /\
  ReviewService.find_reviews_by_center (RP := whole_list)
    owner {| page := 1; size := 10 |} "center-1" (day 0) (day 365) None None world
  = (Return [open_review; closed_review],
     {| db := store;
        calls := [Center_find_by_id "center-1";
                  Review_find_reviews_by_center {| page := 1; size := 10 |}
                    "center-1" (day 0) (day 365) None None] |}).
Proof.
  split; [reflexivity | split].
  - apply (find_reviews_by_center_date_range (RP := whole_list)
             owner {| page := 1; size := 10 |} "center-1" (day 0) (day 366)
             None None world gym eq_refl);
      [reflexivity | left; reflexivity].
  - apply (find_reviews_by_center_date_range (RP := whole_list)
             owner {| page := 1; size := 10 |} "center-1" (day 0) (day 365)
             None None world gym eq_refl);
      [reflexivity | intros [H | H]; discriminate H].
Defined.

(** A stranger's attempt to answer leaves the answers as they were. *)
Lemma create_review_answer_atomic_example :
  let run := ReviewService.create_review_answer
               stranger new_answer "center-1" "review-1" world in
  let e := UnauthorizedException NOT_ACCESSIBLE "암장 관리자가 아닙니다." in
  run = (Raise e, snd run) /\
  db (snd run) = db world /\
  answers (db (snd run)) = answers (db world) /\
  (forall row, ~ In (ReviewAnswer_save row) (added world (snd run))) /\
  read_only (added world (snd run)) = true.
Proof.
  cbv zeta. split; [reflexivity | ].
  apply (create_review_answer_atomic
           stranger new_answer "center-1" "review-1" world _ _ eq_refl).
Defined.

(** With the ASCII digit table the model with the trailing newline is
    built all the same. *)
Lemma operating_time_accepts_trailing_newline_example :
  CenterModel.CenterOperatingTimeDto_validate (U := ascii_digits)
    {| CenterModel.day_of_week := PyStr.py "월";
       CenterModel.start_time := PyStr.py "23:01" ++ [10%N];
       CenterModel.end_time := PyStr.py "18:00" |}
  = CenterModel.Parsed
      {| CenterModel.day_of_week := PyStr.py "월";
         CenterModel.start_time := PyStr.py "23:01" ++ [10%N];
         CenterModel.end_time := PyStr.py "18:00" |}.
Proof.
  apply (proj1 (operating_time_accepts_trailing_newline (U := ascii_digits))).
Defined.

(** A channel code is lost on validation; a code without the sign is
    refused. *)
Lemma validate_youtube_code_returns_none_example :
  PyStr.startswith (PyStr.py "@claon") (PyStr.py "@") = true /\
  CenterModel.validate_youtube_code (Some (PyStr.py "@claon"))
    = CenterModel.Accept None.
Proof.
  split; [reflexivity | ].
  apply (proj1 validate_youtube_code_returns_none (PyStr.py "@claon") eq_refl).
Defined.

End Examples.

(* ===================================================================== *)
(** * Updating and deleting answers; how the operations compose *)
(* ===================================================================== *)

Section AnswerLifecycle.

Import Schema Error ReviewModel PyDate Run Api Props MoreProps.

Context `{RP : ReviewPaging}.

(** ** Facts about replacing and dropping the first selected row *)

Lemma replace_first_length {A} (p : A -> bool) (f : A -> A) (l : list A) :
  length (replace_first p f l) = length l.
Proof.
  induction l as [|x l IH]; simpl; [reflexivity | ].
  destruct (p x); simpl; auto.
Qed.

Lemma replace_first_find {A} (p : A -> bool) (f : A -> A) (l : list A) (a : A) :
  find p l = Some a -> p (f a) = true ->
  find p (replace_first p f l) = Some (f a).
Proof.
  induction l as [|x l IH]; simpl; [discriminate | ].
  destruct (p x) eqn:Hx; simpl.
  - intros H Hf. inversion H; subst x. now rewrite Hf.
  - intros H Hf. rewrite Hx. now apply IH.
Qed.

Lemma replace_first_filter_other {A} (p q : A -> bool) (f : A -> A) (l : list A) :
  (forall x, p x = true -> q x = false /\ q (f x) = false) ->
  filter q (replace_first p f l) = filter q l.
Proof.
  intros Hpq. induction l as [|x l IH]; simpl; [reflexivity | ].
  destruct (p x) eqn:Hx; simpl.
  - destruct (Hpq x Hx) as [H1 H2]. now rewrite H1, H2.
  - now rewrite IH.
Qed.

Lemma remove_first_length {A} (p : A -> bool) (l : list A) (a : A) :
  find p l = Some a -> S (length (remove_first p l)) = length l.
Proof.
  induction l as [|x l IH]; simpl; [discriminate | ].
  destruct (p x); simpl; [reflexivity | ].
  intros H. now rewrite IH.
Qed.

Lemma remove_first_filter_same {A} (p : A -> bool) (l : list A) :
  filter p (remove_first p l) = tl (filter p l).
Proof.
  induction l as [|x l IH]; simpl; [reflexivity | ].
  destruct (p x) eqn:Hx; simpl; [reflexivity | ].
  now rewrite Hx.
Qed.

Lemma remove_first_filter_other {A} (p q : A -> bool) (l : list A) :
  (forall x, p x = true -> q x = false) ->
  filter q (remove_first p l) = filter q l.
Proof.
  intros Hpq. induction l as [|x l IH]; simpl; [reflexivity | ].
  destruct (p x) eqn:Hx; simpl.
  - now rewrite (Hpq x Hx).
  - now rewrite IH.
Qed.

Lemma remove_first_appended {A} (p : A -> bool) (l : list A) (x : A) :
  find p l = None -> p x = true -> remove_first p (l ++ [x]) = l.
Proof.
  intros Hnone Hx. induction l as [|y l IH]; simpl in *.
  - now rewrite Hx.
  - destruct (p y); [discriminate | ]. now rewrite IH.
Qed.

Lemma find_appended {A} (p : A -> bool) (l : list A) (x : A) :
  find p l = None -> p x = true -> find p (l ++ [x]) = Some x.
Proof.
  intros Hnone Hx. induction l as [|y l IH]; simpl in *.
  - now rewrite Hx.
  - destruct (p y); [discriminate | ]. now apply IH.
Qed.

Lemma filter_nil_find_none {A} (p : A -> bool) (l : list A) :
  filter p l = [] -> find p l = None.
Proof.
  induction l as [|x l IH]; simpl; [reflexivity | ].
  destruct (p x); [discriminate | exact IH].
Qed.

Lemma other_review_not_selected (rid rid' : string) (a : ReviewAnswer) :
  rid <> rid' -> answer_of_review rid a = true -> answer_of_review rid' a = false.
Proof.
  unfold answer_of_review. intros Hne H.
  apply String.eqb_eq in H. apply String.eqb_neq. congruence.
Qed.

Lemma with_answers_same (d : DB) : with_answers d (answers d) = d.
Proof. now destruct d. Qed.

(** ** The two operations, outcome by outcome *)

Ltac unfold_service :=
  cbv [call
       ReviewService.create_review_answer ReviewService.update_review_answer
       ReviewService.delete_review_answer ReviewService.find_reviews_by_center
       ReviewService.find_reviews_summary_by_center
       CenterRepository.find_by_id ReviewRepository.find_by_id_and_center_id
       ReviewRepository.find_all_by_center ReviewRepository.find_reviews_by_center
       ReviewAnswerRepository.find_by_review_id ReviewAnswerRepository.save
       ReviewAnswerRepository.delete ReviewAnswerEntity.update
       bind ret raise log rows set_answers or_raise raise_if db calls].

Lemma found_review_id (rid cid : string) (l : list Review) (r : Review) :
  find (review_has_id_and_center rid cid) l = Some r -> review_id r = rid.
Proof.
  intros Hf. apply find_some in Hf. destruct Hf as [_ Hf].
  unfold review_has_id_and_center in Hf.
  apply andb_true_iff in Hf. destruct Hf as [H1 _].
  now apply String.eqb_eq.
Qed.

(** The state an operation reaches, given what its three lookups find.
    [guarded] is the part the four answer operations share. *)
Lemma update_review_answer_run
    (subject : Auth.RequestUser) (dto : ReviewAnswerRequestDto)
    (cid rid : string) (d : DB) (cs : list RepoCall)
    (c : Center) (r : Review) (a : ReviewAnswer) :
  center_of d cid = Some c ->
  is_owner c (Auth.id subject) = true ->
  review_of d cid rid = Some r ->
  answer_of d rid = Some a ->
  ReviewService.update_review_answer subject dto cid rid {| db := d; calls := cs |}
  = (Return {| resp_content := answer_content dto; resp_review_id := rid |},
     {| db := with_answers d
                (replace_first (answer_of_review rid)
                   (fun x => Schema.update x (answer_content dto)) (answers d));
        calls := cs ++ [Center_find_by_id cid;
                        Review_find_by_id_and_center_id rid cid;
                        ReviewAnswer_find_by_review_id rid;
                        ReviewAnswer_update a (answer_content dto)] |}).
Proof.
  unfold center_of, review_of, answer_of. intros Hc Hown Hr Ha.
  unfold_service. rewrite Hc. simpl. rewrite Hown. simpl.
  rewrite (find_center_has_id _ _ _ Hc), Hr. simpl.
  rewrite (found_review_id _ _ _ _ Hr), Ha. simpl.
  rewrite (find_answer_of_review _ _ _ Ha).
  unfold ReviewAnswerResponseDto_from_entity, with_answers. simpl.
  rewrite (find_answer_of_review _ _ _ Ha).
  now repeat rewrite <- app_assoc.
Qed.

Lemma delete_review_answer_run
    (subject : Auth.RequestUser) (cid rid : string) (d : DB) (cs : list RepoCall)
    (c : Center) (r : Review) (a : ReviewAnswer) :
  center_of d cid = Some c ->
  is_owner c (Auth.id subject) = true ->
  review_of d cid rid = Some r ->
  answer_of d rid = Some a ->
  ReviewService.delete_review_answer subject cid rid {| db := d; calls := cs |}
  = (Return tt,
     {| db := with_answers d (remove_first (answer_of_review rid) (answers d));
        calls := cs ++ [Center_find_by_id cid;
                        Review_find_by_id_and_center_id rid cid;
                        ReviewAnswer_find_by_review_id rid;
                        ReviewAnswer_delete a] |}).
Proof.
  unfold center_of, review_of, answer_of. intros Hc Hown Hr Ha.
  unfold_service. rewrite Hc. simpl. rewrite Hown. simpl.
  rewrite (find_center_has_id _ _ _ Hc), Hr. simpl.
  rewrite (found_review_id _ _ _ _ Hr), Ha. simpl.
  rewrite (find_answer_of_review _ _ _ Ha).
  unfold with_answers. now repeat rewrite <- app_assoc.
Qed.

Lemma create_review_answer_run
    (subject : Auth.RequestUser) (dto : ReviewAnswerRequestDto)
    (cid rid : string) (d : DB) (cs : list RepoCall)
    (c : Center) (r : Review) :
  center_of d cid = Some c ->
  is_owner c (Auth.id subject) = true ->
  review_of d cid rid = Some r ->
  answer_of d rid = None ->
  ReviewService.create_review_answer subject dto cid rid {| db := d; calls := cs |}
  = (Return {| resp_content := answer_content dto; resp_review_id := rid |},
     {| db := with_answers d
                (answers d ++ [{| content := answer_content dto; review := r |}]);
        calls := cs ++ [Center_find_by_id cid;
                        Review_find_by_id_and_center_id rid cid;
                        ReviewAnswer_find_by_review_id rid;
                        ReviewAnswer_save
                          {| content := answer_content dto; review := r |}] |}).
Proof.
  unfold center_of, review_of, answer_of. intros Hc Hown Hr Ha.
  unfold_service. rewrite Hc. simpl. rewrite Hown. simpl.
  rewrite (find_center_has_id _ _ _ Hc), Hr. simpl.
  rewrite (found_review_id _ _ _ _ Hr), Ha. simpl.
  unfold ReviewAnswerResponseDto_from_entity, with_answers. simpl.
  rewrite (found_review_id _ _ _ _ Hr).
  now repeat rewrite <- app_assoc.
Qed.

(** A run that returns passed all its lookups. *)
Lemma answer_operation_returned
    (req : Request) (d : DB) (cs : list RepoCall)
    (out : Response) (w' : World) (cid rid : string) :
  center_id_of req = cid -> review_id_of req = Some rid ->
  call req {| db := d; calls := cs |} = (Return out, w') ->
  exists c r,
    center_of d cid = Some c /\
    is_owner c (Auth.id (subject_of req)) = true /\
    review_of d cid rid = Some r /\
    match req with
    | Create_review_answer _ _ _ _ => answer_of d rid = None
    | _ => exists a, answer_of d rid = Some a
    end.
Proof.
  intros Hcid Hrid Hrun.
  pose proof (call_by_guards req d cs) as Hg.
  destruct (first_violated (guards req d)) as [g|] eqn:Hfirst.
  - destruct Hg as (reads & Hcall & _). rewrite Hrun in Hcall. discriminate.
  - clear Hg Hrun. unfold first_violated in Hfirst.
    destruct req as [subject params cid0 start end_ tg ia
                    | subject dto cid0 rid0 | subject dto cid0 rid0
                    | subject cid0 rid0 | subject cid0];
      simpl in Hcid, Hrid; try discriminate;
      inversion Hrid; subst; simpl in Hfirst |- *;
      unfold owned_by, is_owner in *;
      destruct (center_of d cid) as [c|]; simpl in Hfirst; try discriminate;
      destruct (String.eqb (center_owner_id c) (Auth.id subject)) eqn:Hown;
        simpl in Hfirst; try discriminate;
      destruct (review_of d cid rid) as [r|]; simpl in Hfirst; try discriminate;
      destruct (answer_of d rid) as [a|]; simpl in Hfirst; try discriminate;
      exists c, r; repeat split; eauto.
Qed.

(** ** update_review_answer and delete_review_answer *)

(** X1: update_review_answer, when center, ownership, review and answer
    are all found, returns the DTO with the new content and the id of the
    review; the answer of the review now holds the new content, the table
    keeps its length, the answers of other reviews are untouched and the
    one write made is the update of the found row. *)
Theorem update_review_answer_success
    (subject : Auth.RequestUser) (dto : ReviewAnswerRequestDto)
    (cid rid : string) (w : World) (c : Center) (r : Review) (a : ReviewAnswer) :
  center_of (db w) cid = Some c ->
  is_owner c (Auth.id subject) = true ->
  review_of (db w) cid rid = Some r ->
  answer_of (db w) rid = Some a ->
  exists w',
    ReviewService.update_review_answer subject dto cid rid w
      = (Return {| resp_content := answer_content dto; resp_review_id := rid |}, w') /\
    centers (db w') = centers (db w) /\
    reviews (db w') = reviews (db w) /\
    length (answers (db w')) = length (answers (db w)) /\
    answer_of (db w') rid = Some (Schema.update a (answer_content dto)) /\
    (forall rid', rid' <> rid ->
       filter (answer_of_review rid') (answers (db w'))
       = filter (answer_of_review rid') (answers (db w))) /\
    filter is_write (added w w') = [ReviewAnswer_update a (answer_content dto)].
Proof.
  destruct w as [d cs]. simpl. intros Hc Hown Hr Ha.
  eexists. split; [now apply (update_review_answer_run _ _ _ _ _ _ c r a) | ].
  simpl. repeat split.
  - apply replace_first_length.
  - unfold answer_of in *. simpl.
    apply (replace_first_find _ (fun x => Schema.update x (answer_content dto)) _ a);
      [exact Ha | ].
    unfold answer_of_review. simpl.
    rewrite (find_answer_of_review _ _ _ Ha). apply String.eqb_refl.
  - intros rid' Hne. apply replace_first_filter_other.
    intros x Hx. split.
    + apply (other_review_not_selected rid rid'); [congruence | exact Hx].
    + apply (other_review_not_selected rid rid'); [congruence | exact Hx].
  - rewrite added_app. reflexivity.
Qed.

(** X2: delete_review_answer, when center, ownership, review and answer
    are all found, removes exactly one row, an answer of that review: the
    table shrinks by one, the review has one answer fewer, the answers of
    other reviews are untouched, and if no review had two answers the
    review is left without an answer. *)
Theorem delete_review_answer_success
    (subject : Auth.RequestUser) (cid rid : string) (w : World)
    (c : Center) (r : Review) (a : ReviewAnswer) :
  center_of (db w) cid = Some c ->
  is_owner c (Auth.id subject) = true ->
  review_of (db w) cid rid = Some r ->
  answer_of (db w) rid = Some a ->
  exists w',
    ReviewService.delete_review_answer subject cid rid w = (Return tt, w') /\
    centers (db w') = centers (db w) /\
    reviews (db w') = reviews (db w) /\
    S (length (answers (db w'))) = length (answers (db w)) /\
    S (answers_for (db w') rid) = answers_for (db w) rid /\
    (forall rid', rid' <> rid ->
       filter (answer_of_review rid') (answers (db w'))
       = filter (answer_of_review rid') (answers (db w))) /\
    (one_answer_per_review (db w) -> answer_of (db w') rid = None) /\
    filter is_write (added w w') = [ReviewAnswer_delete a].
Proof.
  destruct w as [d cs]. simpl. intros Hc Hown Hr Ha.
  eexists. split; [now apply (delete_review_answer_run _ _ _ _ _ c r a) | ].
  assert (Hcount : S (length (filter (answer_of_review rid)
                                (remove_first (answer_of_review rid) (answers d))))
                   = length (filter (answer_of_review rid) (answers d))).
  { rewrite remove_first_filter_same. unfold answer_of in Ha.
    destruct (filter (answer_of_review rid) (answers d)) eqn:Hf; simpl; auto.
    apply filter_nil_find_none in Hf. congruence. }
  simpl. repeat split.
  - now apply (remove_first_length _ _ a).
  - exact Hcount.
  - intros rid' Hne. apply remove_first_filter_other.
    intros x Hx.
    apply (other_review_not_selected rid rid'); [congruence | exact Hx].
  - intros Hinv. unfold answer_of. simpl. apply filter_nil_find_none.
    specialize (Hinv rid). unfold answers_for in Hinv.
    destruct (filter (answer_of_review rid)
                (remove_first (answer_of_review rid) (answers d)));
      [reflexivity | simpl in Hcount; lia].
  - rewrite added_app. reflexivity.
Qed.

(** ** Sequences of operations *)

(** X3: deleting the answer that create_review_answer has just stored
    brings every table back to what it was before the create. *)
Theorem create_then_delete_restores
    (subject : Auth.RequestUser) (dto : ReviewAnswerRequestDto)
    (cid rid : string) (w w1 : World) (out : ReviewAnswerResponseDto) :
  ReviewService.create_review_answer subject dto cid rid w = (Return out, w1) ->
  exists w2,
    ReviewService.delete_review_answer subject cid rid w1 = (Return tt, w2) /\
    db w2 = db w.
Proof.
  destruct w as [d cs]. intros Hrun.
  assert (Hcall : call (Create_review_answer subject dto cid rid)
                    {| db := d; calls := cs |} = (Return (Answer out), w1))
    by (unfold call, bind; rewrite Hrun; reflexivity).
  destruct (answer_operation_returned
              (Create_review_answer subject dto cid rid)
              _ _ _ _ cid rid eq_refl eq_refl Hcall)
    as (c & r & Hc & Hown & Hr & Ha). simpl in Hown.
  rewrite (create_review_answer_run _ dto _ _ _ cs c r Hc Hown Hr Ha) in Hrun.
  inversion Hrun; subst out w1; clear Hrun Hcall.
  set (row := {| content := answer_content dto; review := r |}).
  assert (Hsel : answer_of_review rid row = true).
  { unfold answer_of_review, row. simpl.
    rewrite (found_review_id _ _ _ _ Hr). apply String.eqb_refl. }
  eexists. split.
  - apply (delete_review_answer_run _ _ _ _ _ c r row); auto.
    unfold answer_of, with_answers. simpl. now apply find_appended.
  - simpl. unfold with_answers. simpl.
    rewrite remove_first_appended; [now destruct d | exact Ha | exact Hsel].
Qed.

(** X4: a second create_review_answer for the same review, right after
    one that succeeded, is refused with the code ROW_ALREADY_EXIST and
    changes nothing. *)
Theorem create_twice_refused
    (subject : Auth.RequestUser) (dto dto' : ReviewAnswerRequestDto)
    (cid rid : string) (w w1 : World) (out : ReviewAnswerResponseDto) :
  ReviewService.create_review_answer subject dto cid rid w = (Return out, w1) ->
  exists w2,
    ReviewService.create_review_answer subject dto' cid rid w1
      = (Raise (NotFoundException ROW_ALREADY_EXIST "이미 작성된 답변이 존재합니다."), w2) /\
    db w2 = db w1.
Proof.
  destruct w as [d cs]. intros Hrun.
  assert (Hcall : call (Create_review_answer subject dto cid rid)
                    {| db := d; calls := cs |} = (Return (Answer out), w1))
    by (unfold call, bind; rewrite Hrun; reflexivity).
  destruct (answer_operation_returned
              (Create_review_answer subject dto cid rid)
              _ _ _ _ cid rid eq_refl eq_refl Hcall)
    as (c & r & Hc & Hown & Hr & Ha). simpl in Hown.
  rewrite (create_review_answer_run _ dto _ _ _ cs c r Hc Hown Hr Ha) in Hrun.
  inversion Hrun; subst out w1; clear Hrun Hcall.
  set (row := {| content := answer_content dto; review := r |}).
  assert (Hsel : answer_of_review rid row = true).
  { unfold answer_of_review, row. simpl.
    rewrite (found_review_id _ _ _ _ Hr). apply String.eqb_refl. }
  match goal with
  | |- context [ReviewService.create_review_answer _ _ _ _ {| db := ?d1; calls := ?cs1 |}] =>
      pose proof (create_review_answer_cases subject dto' cid rid d1 cs1) as Hcase
  end.
  simpl in Hcase. unfold center_of, review_of, answer_of, with_answers in Hcase, Hc, Hr, Ha.
  simpl in Hcase. rewrite Hc in Hcase. unfold is_owner in Hown.
  rewrite Hown in Hcase. simpl in Hcase. rewrite Hr in Hcase.
  rewrite (find_appended _ _ row Ha Hsel) in Hcase.
  eexists. split; [exact Hcase | reflexivity].
Qed.

Lemma delete_review_answer_unanswered
    (subject : Auth.RequestUser) (cid rid : string) (d : DB) (cs : list RepoCall)
    (c : Center) (r : Review) :
  center_of d cid = Some c ->
  is_owner c (Auth.id subject) = true ->
  review_of d cid rid = Some r ->
  answer_of d rid = None ->
  ReviewService.delete_review_answer subject cid rid {| db := d; calls := cs |}
  = (Raise (NotFoundException DATA_DOES_NOT_EXIST
              "해당 리뷰에 답변이 존재하지 않습니다."),
     {| db := d;
        calls := cs ++ [Center_find_by_id cid;
                        Review_find_by_id_and_center_id rid cid;
                        ReviewAnswer_find_by_review_id rid] |}).
Proof.
  unfold center_of, review_of, answer_of. intros Hc Hown Hr Ha.
  unfold_service. rewrite Hc. simpl. rewrite Hown. simpl.
  rewrite (find_center_has_id _ _ _ Hc), Hr. simpl.
  rewrite (found_review_id _ _ _ _ Hr), Ha. simpl.
  now repeat rewrite <- app_assoc.
Qed.

(** What a delete that returned has done, under the one-answer
    invariant: the lookups it passed and the answer gone. *)
Lemma delete_returned
    (subject : Auth.RequestUser) (cid rid : string)
    (d : DB) (cs : list RepoCall) (w1 : World) :
  one_answer_per_review d ->
  ReviewService.delete_review_answer subject cid rid {| db := d; calls := cs |}
    = (Return tt, w1) ->
  exists c r,
    center_of (db w1) cid = Some c /\
    is_owner c (Auth.id subject) = true /\
    review_of (db w1) cid rid = Some r /\
    answer_of (db w1) rid = None /\
    db w1 = with_answers d (remove_first (answer_of_review rid) (answers d)).
Proof.
  intros Hinv Hrun.
  assert (Hcall : call (Delete_review_answer subject cid rid)
                    {| db := d; calls := cs |} = (Return Deleted, w1))
    by (unfold call, bind; rewrite Hrun; reflexivity).
  destruct (answer_operation_returned
              (Delete_review_answer subject cid rid)
              _ _ _ _ cid rid eq_refl eq_refl Hcall)
    as (c & r & Hc & Hown & Hr & a & Ha). simpl in Hown.
  rewrite (delete_review_answer_run _ _ _ _ cs c r a Hc Hown Hr Ha) in Hrun.
  inversion Hrun; subst w1; clear Hrun Hcall.
  exists c, r. simpl. repeat split; auto.
  unfold answer_of, with_answers. simpl. apply filter_nil_find_none.
  rewrite remove_first_filter_same.
  specialize (Hinv rid). unfold answers_for in Hinv.
  destruct (filter (answer_of_review rid) (answers d)) as [|x [|y l]];
    simpl in *; [reflexivity | reflexivity | lia].
Qed.

(** X5: under the one-answer invariant, deleting the answer of a review a
    second time is refused with NotFoundException (DATA_DOES_NOT_EXIST)
    and changes nothing. *)
Theorem delete_twice_refused
    (subject : Auth.RequestUser) (cid rid : string) (w w1 : World) :
  one_answer_per_review (db w) ->
  ReviewService.delete_review_answer subject cid rid w = (Return tt, w1) ->
  exists w2,
    ReviewService.delete_review_answer subject cid rid w1
      = (Raise (NotFoundException DATA_DOES_NOT_EXIST
                  "해당 리뷰에 답변이 존재하지 않습니다."), w2) /\
    db w2 = db w1.
Proof.
  destruct w as [d cs]. simpl. intros Hinv Hrun.
  destruct (delete_returned _ _ _ _ _ _ Hinv Hrun)
    as (c & r & Hc & Hown & Hr & Ha & _).
  destruct w1 as [d1 cs1]. simpl in *.
  eexists. split.
  - now apply (delete_review_answer_unanswered _ _ _ _ _ c r).
  - reflexivity.
Qed.

(** X6: under the one-answer invariant, a review whose answer was deleted
    can be answered again: the create that follows returns the new
    content, and the review has one answer. *)
Theorem delete_then_create_succeeds
    (subject : Auth.RequestUser) (dto : ReviewAnswerRequestDto)
    (cid rid : string) (w w1 : World) :
  one_answer_per_review (db w) ->
  ReviewService.delete_review_answer subject cid rid w = (Return tt, w1) ->
  exists w2,
    ReviewService.create_review_answer subject dto cid rid w1
      = (Return {| resp_content := answer_content dto; resp_review_id := rid |}, w2) /\
    answers_for (db w2) rid = 1%nat /\
    one_answer_per_review (db w2).
Proof.
  destruct w as [d cs]. simpl. intros Hinv Hrun.
  destruct (delete_returned _ _ _ _ _ _ Hinv Hrun)
    as (c & r & Hc & Hown & Hr & Ha & Hdb).
  destruct w1 as [d1 cs1]. simpl in *.
  eexists. split; [now apply (create_review_answer_run _ _ _ _ _ _ c r) | ].
  assert (Hsel : forall q,
            answer_of_review q {| content := answer_content dto; review := r |}
            = String.eqb rid q).
  { intros q. unfold answer_of_review. simpl.
    now rewrite (found_review_id _ _ _ _ Hr). }
  assert (Hd1 : forall q, (answers_for d1 q <= 1)%nat).
  { intros q. subst d1. unfold answers_for, with_answers. simpl.
    pose proof (remove_first_lowers_count
                  (answer_of_review rid) (answer_of_review q) (answers d)).
    specialize (Hinv q). unfold answers_for in Hinv. lia. }
  assert (Hnone : answers_for d1 rid = 0%nat).
  { unfold answers_for. unfold answer_of in Ha.
    now rewrite (find_none_filter_nil _ _ Ha). }
  unfold answers_for in *. simpl. split.
  - rewrite filter_app, length_app. simpl. rewrite Hsel, String.eqb_refl.
    simpl. lia.
  - intros q. unfold answers_for. simpl.
    rewrite filter_app, length_app. simpl. rewrite Hsel.
    destruct (String.eqb rid q) eqn:Hq; simpl.
    + apply String.eqb_eq in Hq. subst q. lia.
    + specialize (Hd1 q). lia.
Qed.

Lemma replace_first_twice {A} (p : A -> bool) (f g : A -> A) (l : list A) :
  (forall x, p x = true -> p (f x) = true) ->
  replace_first p g (replace_first p f l)
  = replace_first p (fun x => g (f x)) l.
Proof.
  intros Hp. induction l as [|x l IH]; simpl; [reflexivity | ].
  destruct (p x) eqn:Hx; simpl.
  - now rewrite (Hp x Hx).
  - now rewrite Hx, IH.
Qed.

Lemma replace_first_ext {A} (p : A -> bool) (f g : A -> A) (l : list A) :
  (forall x, f x = g x) -> replace_first p f l = replace_first p g l.
Proof.
  intros Hfg. induction l as [|x l IH]; simpl; [reflexivity | ].
  destruct (p x); [now rewrite Hfg | now rewrite IH].
Qed.

(** X7: of two updates of the same answer in a row the last one decides:
    the tables after both are the tables the second update alone would
    have produced, and the DTO returned carries the second content. *)
Theorem update_twice_last_wins
    (subject : Auth.RequestUser) (dto1 dto2 : ReviewAnswerRequestDto)
    (cid rid : string) (w w1 : World) (out1 : ReviewAnswerResponseDto) :
  ReviewService.update_review_answer subject dto1 cid rid w = (Return out1, w1) ->
  exists w2 w2',
    ReviewService.update_review_answer subject dto2 cid rid w1
      = (Return {| resp_content := answer_content dto2; resp_review_id := rid |}, w2) /\
    ReviewService.update_review_answer subject dto2 cid rid w
      = (Return {| resp_content := answer_content dto2; resp_review_id := rid |}, w2') /\
    db w2 = db w2'.
Proof.
  destruct w as [d cs]. intros Hrun.
  assert (Hcall : call (Update_review_answer subject dto1 cid rid)
                    {| db := d; calls := cs |} = (Return (Answer out1), w1))
    by (unfold call, bind; rewrite Hrun; reflexivity).
  destruct (answer_operation_returned
              (Update_review_answer subject dto1 cid rid)
              _ _ _ _ cid rid eq_refl eq_refl Hcall)
    as (c & r & Hc & Hown & Hr & a & Ha). simpl in Hown.
  rewrite (update_review_answer_run _ dto1 _ _ _ cs c r a Hc Hown Hr Ha) in Hrun.
  inversion Hrun; subst out1 w1; clear Hrun Hcall.
  assert (Hkeep : forall content x,
            answer_of_review rid x = true ->
            answer_of_review rid (Schema.update x content) = true)
    by (intros content x Hx; exact Hx).
  eexists. eexists. split; [ | split].
  - apply (update_review_answer_run _ dto2 _ _ _ _ c r
             (Schema.update a (answer_content dto1))); auto.
    unfold answer_of, with_answers. simpl.
    apply (replace_first_find _ (fun x => Schema.update x (answer_content dto1)) _ a);
      [exact Ha | ].
    apply Hkeep. unfold answer_of in Ha. apply find_some in Ha. tauto.
  - apply (update_review_answer_run _ dto2 _ _ _ _ c r a); auto.
  - simpl. unfold with_answers. simpl. f_equal.
    rewrite replace_first_twice by (intros x Hx; exact Hx).
    apply replace_first_ext. intros x. reflexivity.
Qed.

(** ** What the operations leave alone *)

(** X8: the two read operations, find_reviews_by_center and
    find_reviews_summary_by_center, never write: whatever they return or
    raise, every table is as before and every call they made is a read. *)
Theorem queries_never_write
    (req : Request) (w w' : World) (out : Outcome Response) :
  review_id_of req = None ->
  call req w = (out, w') ->
  db w' = db w /\ read_only (added w w') = true.
Proof.
  destruct w as [d cs]. intros Hq Hrun.
  pose proof (call_by_guards req d cs) as Hg.
  destruct (first_violated (guards req d)) as [g|].
  - destruct Hg as (reads & Hcall & Hreads). rewrite Hrun in Hcall.
    inversion Hcall; subst. rewrite added_app. auto.
  - clear Hg. revert Hrun.
    destruct req as [subject params cid start end_ tg ia
                    | subject dto cid rid | subject dto cid rid
                    | subject cid rid | subject cid];
      try discriminate; clear Hq;
      unfold_service; unfold is_owner;
      destruct (find (center_has_id cid) (centers d)) as [c|]; simpl;
      try (intros E; inversion E; subst; rewrite added_app; now auto);
      destruct (String.eqb (center_owner_id c) (Auth.id subject)); simpl;
      try (intros E; inversion E; subst; rewrite added_app; now auto).
    + destruct ((days_between end_ start >? 365)%Z
                || (days_between end_ start <? 0)%Z); simpl;
        intros E; inversion E; subst;
        repeat rewrite <- app_assoc; rewrite added_app; now auto.
    + destruct (ReviewService.scan_reviews _) as [flags tags].
      intros E; inversion E; subst.
      repeat rewrite <- app_assoc; rewrite added_app; now auto.
Qed.



Lemma find_none_all {A} (p : A -> bool) (l : list A) :
  (forall x, In x l -> p x = false) -> find p l = None.
Proof.
  induction l as [|x l IH]; simpl; intros H; [reflexivity | ].
  rewrite (H x (or_introl eq_refl)). apply IH. intros y Hy. apply H. now right.
Qed.

(** X10: the owner of a center cannot answer, rewrite or delete the answer
    of a review that is not in that center: if every review with the
    given id belongs to another center, the three answer operations raise
    NotFoundException (DATA_DOES_NOT_EXIST) and change nothing, whether or
    not the review has an answer. *)
Theorem review_of_another_center_is_not_found
    (req : Request) (w : World) (c : Center) (rid : string) :
  review_id_of req = Some rid ->
  center_of (db w) (center_id_of req) = Some c ->
  is_owner c (Auth.id (subject_of req)) = true ->
  (forall r, In r (reviews (db w)) -> review_id r = rid ->
             review_center_id r <> center_id_of req) ->
  exists message w',
    call req w = (Raise (NotFoundException DATA_DOES_NOT_EXIST message), w') /\
    db w' = db w /\
    read_only (added w w') = true.
Proof.
  destruct w as [d cs]. simpl. intros Hrid Hc Hown Helse.
  assert (Hnone : review_of d (center_id_of req) rid = None).
  { unfold review_of. apply find_none_all. intros r Hin.
    unfold review_has_id_and_center.
    destruct (String.eqb (review_id r) rid) eqn:Hid; simpl; [ | reflexivity].
    apply String.eqb_eq in Hid. apply String.eqb_neq. now apply Helse. }
  pose proof (call_by_guards req d cs) as Hg.
  assert (Hfirst : exists message,
            first_violated (guards req d)
            = Some (review_exists d (center_id_of req) rid message)).
  { unfold first_violated, owned_by. unfold is_owner in Hown.
    destruct req as [subject params cid start end_ tg ia
                    | subject dto cid rid0 | subject dto cid rid0
                    | subject cid rid0 | subject cid];
      simpl in Hrid, Hc, Hown, Hnone |- *; try discriminate;
      inversion Hrid; subst rid0;
      unfold owned_by; rewrite Hc; simpl; rewrite Hown; simpl;
      rewrite Hnone; simpl; eauto. }
  destruct Hfirst as [message Hfirst]. rewrite Hfirst in Hg.
  destruct Hg as (reads & Hcall & Hreads).
  exists message. eexists. split; [exact Hcall | ].
  rewrite added_app. simpl. auto.
Qed.

End AnswerLifecycle.

(* ===================================================================== *)
(** * Counter: totals and the order of the keys *)
(* ===================================================================== *)

Section CounterOrder.

Import Collections MoreProps.

Context {K : Type} (eqb : K -> K -> bool).
Hypothesis eqb_eq : forall a b, eqb a b = true <-> a = b.

Lemma total_incr (k : K) (c : counter) :
  total (incr eqb k c) = S (total c).
Proof.
  unfold total. induction c as [|[k0 n] c IH]; simpl; [reflexivity | ].
  destruct (eqb k0 k); simpl; [reflexivity | ].
  rewrite IH. lia.
Qed.

Lemma total_fold_incr (l : list K) (c : counter) :
  total (fold_left (fun c x => incr eqb x c) l c) = (total c + length l)%nat.
Proof.
  revert c. induction l as [|x l IH]; intros c; simpl; [lia | ].
  rewrite IH, total_incr. lia.
Qed.

Lemma keys_incr_present (k : K) (c : counter) :
  missing eqb (map fst c) k = false -> map fst (incr eqb k c) = map fst c.
Proof.
  unfold missing. induction c as [|[k0 n] c IH]; simpl; [discriminate | ].
  destruct (eqb k0 k); simpl; [reflexivity | ].
  intros H. now rewrite IH.
Qed.

Lemma keys_incr_missing (k : K) (c : counter) :
  missing eqb (map fst c) k = true -> map fst (incr eqb k c) = map fst c ++ [k].
Proof.
  unfold missing. induction c as [|[k0 n] c IH]; simpl; [reflexivity | ].
  destruct (eqb k0 k); simpl; [discriminate | ].
  intros H. now rewrite IH.
Qed.

Lemma filter_filter_comm {A} (p q : A -> bool) (l : list A) :
  filter p (filter q l) = filter q (filter p l).
Proof.
  induction l as [|x l IH]; simpl; [reflexivity | ].
  destruct (p x) eqn:Hp, (q x) eqn:Hq; simpl; rewrite ?Hp, ?Hq, IH; reflexivity.
Qed.

Lemma filter_filter_absorb {A} (p q : A -> bool) (l : list A) :
  (forall y, p y = true -> q y = true) ->
  filter p (filter q l) = filter p l.
Proof.
  intros Hpq. induction l as [|x l IH]; simpl; [reflexivity | ].
  destruct (q x) eqn:Hq; simpl.
  - now rewrite IH.
  - destruct (p x) eqn:Hp; [ | exact IH].
    rewrite (Hpq x Hp) in Hq. discriminate.
Qed.

Lemma filter_and {A} (p q : A -> bool) (l : list A) :
  filter (fun y => p y && q y) l = filter q (filter p l).
Proof.
  induction l as [|x l IH]; simpl; [reflexivity | ].
  destruct (p x); simpl; [ | exact IH].
  destruct (q x); now rewrite IH.
Qed.

Lemma first_occurrences_filter (p : K -> bool) (l : list K) :
  first_occurrences eqb (filter p l) = filter p (first_occurrences eqb l).
Proof.
  induction l as [|x l IH]; simpl; [reflexivity | ].
  destruct (p x) eqn:Hp; simpl.
  - rewrite IH. now rewrite filter_filter_comm.
  - rewrite IH. symmetry. apply filter_filter_absorb.
    intros y Hy. destruct (eqb x y) eqn:Hxy; [ | reflexivity].
    apply eqb_eq in Hxy. subst y. congruence.
Qed.

Lemma keys_fold_incr_order (l : list K) (c : counter) :
  map fst (fold_left (fun c x => incr eqb x c) l c)
  = map fst c ++ first_occurrences eqb (filter (missing eqb (map fst c)) l).
Proof.
  revert c. induction l as [|x l IH]; intros c; simpl.
  - now rewrite app_nil_r.
  - rewrite IH. destruct (missing eqb (map fst c) x) eqn:Hx.
    + rewrite (keys_incr_missing _ _ Hx). rewrite <- app_assoc. simpl.
      f_equal. f_equal.
      rewrite <- first_occurrences_filter. f_equal.
      rewrite <- filter_and. apply filter_ext. intros y.
      unfold missing. rewrite existsb_app. simpl.
      rewrite orb_false_r, negb_orb. reflexivity.
    + now rewrite (keys_incr_present _ _ Hx).
Qed.

(** The keys of a Counter are the distinct elements in order of first
    occurrence, and its counts add up to the length of the list. *)
Lemma Counter_keys_total (l : list K) :
  map fst (Counter eqb l) = first_occurrences eqb l /\
  total (Counter eqb l) = length l.
Proof.
  unfold Counter. split.
  - rewrite keys_fold_incr_order. simpl. f_equal.
    induction l as [|x l IH]; simpl; [reflexivity | now rewrite IH].
  - now rewrite total_fold_incr.
Qed.

End CounterOrder.

(* ===================================================================== *)
(** * The review summary: totals and order *)
(* ===================================================================== *)

Section SummaryTotals.

Import Schema Error ReviewModel Run Props MoreProps.

(** The summary of an owned center, as a value. *)
Lemma find_reviews_summary_run
    (subject : Auth.RequestUser) (cid : string) (d : DB) (cs : list RepoCall)
    (c : Center) :
  center_of d cid = Some c ->
  is_owner c (Auth.id subject) = true ->
  let rs := filter (review_in_center cid) (reviews d) in
  let words := map word (concat (map tag rs)) in
  ReviewService.find_reviews_summary_by_center subject cid {| db := d; calls := cs |}
  = (Return
       {| summary_center := c;
          review_by_answer := Collections.Counter Bool.eqb (map is_answered rs);
          review_count_by_tag :=
            map (fun '(t, n) => {| tag_word := t; count := n |})
                (Collections.Counter String.eqb words) |},
     {| db := d;
        calls := cs ++ [Center_find_by_id cid; Review_find_all_by_center cid] |}).
Proof.
  unfold center_of. intros Hc Hown. cbv zeta.
  cbv [ReviewService.find_reviews_summary_by_center
       CenterRepository.find_by_id ReviewRepository.find_all_by_center
       bind ret raise log rows or_raise raise_if db calls].
  rewrite Hc. simpl. rewrite Hown. simpl.
  rewrite (find_center_has_id _ _ _ Hc).
  rewrite scan_reviews_maps, sum_lists_concat.
  unfold ReviewSummaryResponseDto_from_entity, Collections.items.
  now repeat rewrite <- app_assoc.
Qed.

(** X11: in the summary of an owned center the answered and the
    unanswered count add up to the number of reviews of the center, and
    the counts of the tag entries add up to the number of tags those
    reviews carry. A center without reviews gets an empty tally: both
    counts are 0 and there is no tag entry. *)
Theorem review_summary_totals
    (subject : Auth.RequestUser) (cid : string) (w : World) (c : Center) :
  center_of (db w) cid = Some c ->
  is_owner c (Auth.id subject) = true ->
  let rs := filter (review_in_center cid) (reviews (db w)) in
  exists dto w',
    ReviewService.find_reviews_summary_by_center subject cid w = (Return dto, w') /\
    (Collections.get Bool.eqb (review_by_answer dto) true
     + Collections.get Bool.eqb (review_by_answer dto) false = length rs)%nat /\
    list_sum (map count (review_count_by_tag dto))
      = length (concat (map tag rs)) /\
    (rs = [] ->
     Collections.get Bool.eqb (review_by_answer dto) true = 0%nat /\
     Collections.get Bool.eqb (review_by_answer dto) false = 0%nat /\
     review_count_by_tag dto = []).
Proof.
  destruct w as [d cs]. simpl. intros Hc Hown.
  eexists. eexists. split; [exact (find_reviews_summary_run _ _ _ _ c Hc Hown) | ].
  simpl. set (rs := filter (review_in_center cid) (reviews d)).
  split; [ | split].
  - rewrite !(get_Counter Bool.eqb bool_eqb_eq bool_dec), !count_flag.
    induction rs as [|r rs IH]; simpl; [reflexivity | ].
    destruct (is_answered r); simpl; lia.
  - rewrite map_map.
    erewrite map_ext with (g := snd); [ | now intros [t n]].
    destruct (Counter_keys_total String.eqb String.eqb_eq
                (map word (concat (map tag rs)))) as [_ Htotal].
    unfold total in Htotal. rewrite Htotal. apply length_map.
  - intros ->. simpl. auto.
Qed.

(** X12: the tag entries of the summary come in the order in which the
    tag words first occur, going through the reviews of the center in
    table order and through each review's tags in order. *)
Theorem review_summary_tag_order
    (subject : Auth.RequestUser) (cid : string) (w : World) (c : Center) :
  center_of (db w) cid = Some c ->
  is_owner c (Auth.id subject) = true ->
  let rs := filter (review_in_center cid) (reviews (db w)) in
  exists dto w',
    ReviewService.find_reviews_summary_by_center subject cid w = (Return dto, w') /\
    map tag_word (review_count_by_tag dto)
      = first_occurrences String.eqb (map word (concat (map tag rs))).
Proof.
  destruct w as [d cs]. simpl. intros Hc Hown.
  eexists. eexists. split; [exact (find_reviews_summary_run _ _ _ _ c Hc Hown) | ].
  simpl. rewrite map_map.
  erewrite map_ext with (g := fst); [ | now intros [t n]].
  now destruct (Counter_keys_total String.eqb String.eqb_eq
                  (map word (concat (map tag
                     (filter (review_in_center cid) (reviews d)))))).
Qed.

End SummaryTotals.

(* ===================================================================== *)
(** * The matcher against the meaning of patterns *)
(* ===================================================================== *)

Section Matcher.

Import PyStr Re MoreProps.

Context `{U : UnicodeDb}.

(** The backtracking matcher succeeds exactly when the text splits into a
    piece the pattern matches and a rest the continuation accepts. *)
Lemma run_matches (r : regex) :
  forall (pos : nat) (s : str) (k : nat -> str -> bool),
    run r pos s k = true <->
    exists s1 s2, s = s1 ++ s2 /\ matches r pos s1 s2 /\
                  k (pos + length s1)%nat s2 = true.
Proof.
  induction r as [ | | c | | lo hi | a IHa b IHb | a IHa b IHb];
    intros pos s k; simpl.
  - (* ^ *)
    rewrite andb_true_iff, Nat.eqb_eq. split.
    + intros [-> Hk]. exists [], s. simpl. auto.
    + intros (s1 & s2 & -> & [-> ->] & Hk). simpl in Hk. auto.
  - (* $ *)
    split.
    + intros H. exists [], s. simpl. rewrite Nat.add_0_r.
      destruct s as [|c [|c' s]]; try discriminate; auto.
      apply andb_true_iff in H. destruct H as [Hc Hk].
      apply N.eqb_eq in Hc. subst c. auto.
    + intros (s1 & s2 & -> & [-> Hend] & Hk). simpl in *.
      rewrite Nat.add_0_r in Hk.
      destruct Hend as [-> | ->]; simpl; auto.
  - (* literal *)
    split.
    + destruct s as [|x s]; [discriminate | ].
      rewrite andb_true_iff, N.eqb_eq. intros [-> Hk].
      exists [c], s. simpl. rewrite Nat.add_1_r. auto.
    + intros (s1 & s2 & -> & -> & Hk). simpl in *.
      rewrite Nat.add_1_r in Hk. now rewrite N.eqb_refl.
  - (* \d *)
    split.
    + destruct s as [|x s]; [discriminate | ].
      rewrite andb_true_iff. intros [Hx Hk].
      exists [x], s. simpl. rewrite Nat.add_1_r. eauto.
    + intros (s1 & s2 & -> & (x & -> & Hx) & Hk). simpl in *.
      rewrite Nat.add_1_r in Hk. now rewrite Hx.
  - (* [lo-hi] *)
    split.
    + destruct s as [|x s]; [discriminate | ].
      rewrite !andb_true_iff, !N.leb_le. intros [Hx Hk].
      exists [x], s. simpl. rewrite Nat.add_1_r. eauto.
    + intros (s1 & s2 & -> & (x & -> & Hx) & Hk). simpl in *.
      rewrite Nat.add_1_r in Hk.
      rewrite !andb_true_iff, !N.leb_le. auto.
  - (* sequence *)
    rewrite IHa. split.
    + intros (u & rest & -> & Ha & Hb).
      apply IHb in Hb. destruct Hb as (v & s2 & -> & Hb & Hk).
      exists (u ++ v), s2. rewrite <- app_assoc. split; [reflexivity | ].
      split; [exists u, v; auto | ].
      now rewrite length_app, Nat.add_assoc.
    + intros (s1 & s2 & -> & (u & v & -> & Ha & Hb) & Hk).
      exists u, (v ++ s2). rewrite <- app_assoc. split; [reflexivity | ].
      split; [exact Ha | ].
      apply IHb. exists v, s2. split; [reflexivity | ]. split; [exact Hb | ].
      now rewrite length_app, Nat.add_assoc in Hk.
  - (* alternative *)
    rewrite orb_true_iff, IHa, IHb. split.
    + intros [(s1 & s2 & H & Hm & Hk) | (s1 & s2 & H & Hm & Hk)];
        exists s1, s2; auto.
    + intros (s1 & s2 & H & [Hm | Hm] & Hk); [left | right];
        exists s1, s2; auto.
Qed.

End Matcher.

(* ===================================================================== *)
(** * Properties of the remaining request models *)
(* ===================================================================== *)

Section RequestModelProperties.

Import PyStr Re CenterModel ModelProps MoreProps.

Context `{U : UnicodeDb}.

(** ** Times of day *)

(** X13: on a text that does not end in a newline and whose decimal
    digits are all ASCII digits, the validators of start_time and
    end_time accept exactly the HH:MM times of day, hour 00 to 23 and
    minute 00 to 59, and return the text as it is. *)
Theorem time_validators_exact_on_plain_text (s : str) :
  (forall c, In c s -> isdecimal c = true -> ascii_digit c = true) ->
  last s 0%N <> 10%N ->
  (validate_start_time s = Accept s <-> is_hh_mm s = true) /\
  (validate_end_time s = Accept s <-> is_hh_mm s = true).
Proof.
  intros Hascii Hlast.
  assert (Hcore : match_ time_pattern s = true -> is_hh_mm s = true).
  { rewrite match_time_pattern. unfold time_accepted.
    destruct s as [|h1 [|h2 [|c [|m1 [|m2 [|nl [|x s]]]]]]]; try discriminate.
    - unfold hour_ok, minute_ok, is_hh_mm.
      rewrite !andb_true_iff, orb_true_iff, !andb_true_iff, orb_true_iff.
      rewrite !N.eqb_eq, !N.leb_le.
      intros [[Hh Hc] [[Hm1a Hm1b] Hm2]].
      apply Hascii in Hm2; [ | simpl; tauto].
      unfold ascii_digit, digit_value in *. unfold chr in *. simpl N_of_ascii in *.
      rewrite andb_true_iff, !N.leb_le in Hm2.
      rewrite ?andb_true_iff, ?N.leb_le, ?N.eqb_eq.
      destruct Hh as [[Hh1 Hh2] | [Hh1 [Hh2a Hh2b]]].
      + apply Hascii in Hh2; [ | simpl; tauto].
        rewrite andb_true_iff, !N.leb_le in Hh2.
        destruct Hh1 as [-> | ->]; repeat split; lia.
      + subst h1. repeat split; lia.
    - intros H. apply andb_true_iff in H. destruct H as [_ Hnl].
      apply N.eqb_eq in Hnl. subst nl.
      simpl in Hlast. congruence. }
  split; split.
  - unfold validate_start_time.
    destruct (match_ time_pattern s); simpl; intros H;
      [now apply Hcore | discriminate].
  - apply hh_mm_accepted.
  - unfold validate_end_time.
    destruct (match_ time_pattern s); simpl; intros H;
      [now apply Hcore | discriminate].
  - intros H. exact (hh_mm_accepted s H).
Qed.

(** ** Telephone numbers *)

Lemma matches_digit_run_4 (pos : nat) (u s2 : str) :
  matches CenterRequestDto.digits_4 pos u s2 <->
  length u = 4%nat /\ all_digits u = true.
Proof.
  unfold CenterRequestDto.digits_4, all_digits. simpl. split.
  - intros (u1 & v1 & -> & (x1 & -> & H1) &
            u2 & v2 & -> & (x2 & -> & H2) &
            u3 & v3 & -> & (x3 & -> & H3) & x4 & -> & H4).
    simpl. now rewrite H1, H2, H3, H4.
  - destruct u as [|a [|b [|c [|d [|e u]]]]]; simpl; intros [Hl Hd];
      try discriminate.
    rewrite !andb_true_iff in Hd. destruct Hd as (Ha & Hb & Hc & Hd & _).
    exists [a], [b; c; d]. repeat split; eauto.
    exists [b], [c; d]. repeat split; eauto.
    exists [c], [d]. repeat split; eauto.
Qed.

Lemma matches_digit_run_3_4 (pos : nat) (u s2 : str) :
  matches CenterRequestDto.digits_3_4 pos u s2 <->
  (length u = 3%nat \/ length u = 4%nat) /\ all_digits u = true.
Proof.
  unfold CenterRequestDto.digits_3_4. cbn [matches].
  rewrite matches_digit_run_4. unfold all_digits. simpl. split.
  - intros [[Hl Hd] | (u1 & v1 & -> & (x1 & -> & H1) &
                       u2 & v2 & -> & (x2 & -> & H2) & x3 & -> & H3)].
    + auto.
    + simpl. rewrite H1, H2, H3. auto.
  - intros [[Hl | Hl] Hd]; [right | left; auto].
    destruct u as [|a [|b [|c [|d u]]]]; simpl in Hl; try discriminate.
    simpl in Hd. rewrite !andb_true_iff in Hd. destruct Hd as (Ha & Hb & Hc & _).
    exists [a], [b; c]. repeat split; eauto.
    exists [b], [c]. repeat split; eauto.
Qed.

Lemma matches_digit_run_1_2 (pos : nat) (u s2 : str) :
  matches CenterRequestDto.digits_1_2 pos u s2 <->
  (length u = 1%nat \/ length u = 2%nat) /\ all_digits u = true.
Proof.
  unfold CenterRequestDto.digits_1_2, all_digits. simpl. split.
  - intros [(u1 & v1 & -> & (x1 & -> & H1) & x2 & -> & H2) | (x & -> & H)].
    + simpl. rewrite H1, H2. auto.
    + simpl. rewrite H. auto.
  - intros [[Hl | Hl] Hd].
    + right. destruct u as [|a [|b u]]; simpl in Hl; try discriminate.
      simpl in Hd. rewrite andb_true_r in Hd. eauto.
    + left. destruct u as [|a [|b [|c u]]]; simpl in Hl; try discriminate.
      simpl in Hd. rewrite !andb_true_iff in Hd. destruct Hd as (Ha & Hb & _).
      exists [a], [b]. repeat split; eauto.
Qed.

(** X14: validate_tel accepts a text exactly when it is 0, one or two
    digits, a hyphen, three or four digits, a hyphen and four digits,
    either alone or followed by one newline; the text is returned as it
    is. An accepted text therefore has 11 to 14 characters. *)
Theorem validate_tel_accepts (value : str) :
  (CenterRequestDto.validate_tel value = Accept value <->
   exists area mid last,
     tel_shape area mid last = true /\
     (value = tel_text area mid last \/
      value = tel_text area mid last ++ [10%N])) /\
  (CenterRequestDto.validate_tel value = Accept value ->
   (11 <= len value <= 14)%Z) /\
  (forall v, CenterRequestDto.validate_tel value = Accept v -> v = value).
Proof.
  assert (Hiff : match_ CenterRequestDto.tel_pattern value = true <->
                 exists area mid last,
                   tel_shape area mid last = true /\
                   (value = tel_text area mid last \/
                    value = tel_text area mid last ++ [10%N])).
  { unfold match_. rewrite run_matches.
    unfold CenterRequestDto.tel_pattern. cbn [matches]. split.
    - intros (s1 & s2 & -> &
              (u0 & v0 & -> & [-> _] &
               u1 & v1 & -> & -> &
               area & v2 & -> & Harea &
               u3 & v3 & -> & -> &
               mid & v4 & -> & Hmid &
               u5 & v5 & -> & -> &
               last & v6 & -> & Hlast & -> & Hend) & _).
      apply matches_digit_run_1_2 in Harea.
      apply matches_digit_run_3_4 in Hmid.
      apply matches_digit_run_4 in Hlast.
      exists area, mid, last. split.
      + unfold tel_shape.
        destruct Harea as [[-> | ->] ->], Hmid as [[-> | ->] ->],
                 Hlast as [-> ->]; reflexivity.
      + unfold tel_text. rewrite !app_nil_r. simpl.
        destruct Hend as [-> | ->]; [left | right];
          rewrite ?app_nil_r; simpl; rewrite <- ?app_assoc; simpl;
          rewrite <- ?app_assoc; reflexivity.
    - intros (area & mid & last & Hshape & Hvalue).
      unfold tel_shape in Hshape.
      rewrite !andb_true_iff, !orb_true_iff, !Nat.eqb_eq in Hshape.
      destruct Hshape as (((((Hla & Hda) & Hlm) & Hdm) & Hll) & Hdl).
      assert (Hend : exists s2, value = tel_text area mid last ++ s2 /\
                                (s2 = [] \/ s2 = [10%N])).
      { destruct Hvalue as [-> | ->];
          [exists []; split; [now rewrite app_nil_r | now left]
          | exists [10%N]; auto]. }
      destruct Hend as (s2 & -> & Hend). clear Hvalue.
      exists (tel_text area mid last), s2.
      split; [reflexivity | ]. split; [ | reflexivity].
      exists [], (tel_text area mid last). split; [reflexivity | ].
      split; [auto | ].
      exists [chr "0"], (area ++ chr "-" :: mid ++ chr "-" :: last).
      split; [reflexivity | ]. split; [reflexivity | ].
      exists area, (chr "-" :: mid ++ chr "-" :: last).
      split; [reflexivity | ].
      split; [apply matches_digit_run_1_2; auto | ].
      exists [chr "-"], (mid ++ chr "-" :: last).
      split; [reflexivity | ]. split; [reflexivity | ].
      exists mid, (chr "-" :: last).
      split; [reflexivity | ].
      split; [apply matches_digit_run_3_4; auto | ].
      exists [chr "-"], last.
      split; [reflexivity | ]. split; [reflexivity | ].
      exists last, []. split; [now rewrite app_nil_r | ].
      split; [apply matches_digit_run_4; auto | ].
      split; [reflexivity | exact Hend]. }
  unfold CenterRequestDto.validate_tel. split; [ | split].
  - rewrite <- Hiff.
    destruct (match_ CenterRequestDto.tel_pattern value); simpl;
      split; auto; discriminate.
  - destruct (match_ CenterRequestDto.tel_pattern value) eqn:Hm; simpl;
      [ | discriminate].
    intros _.
    destruct (proj1 Hiff eq_refl) as (area & mid & last & Hshape & Hvalue).
    unfold tel_shape in Hshape.
    rewrite !andb_true_iff, !orb_true_iff, !Nat.eqb_eq in Hshape.
    destruct Hshape as (((((Hla & _) & Hlm) & _) & Hll) & _).
    unfold len, tel_text.
    destruct Hvalue as [-> | ->]; simpl;
      rewrite ?length_app; simpl; rewrite ?length_app; simpl;
      rewrite ?length_app; simpl; lia.
  - intros v. destruct (match_ CenterRequestDto.tel_pattern value); simpl;
      intros H; now inversion H.
Qed.

End RequestModelProperties.

Section NameProperties.

Import PyStr Re CenterModel.

Context `{C : CenterRequestDto.Consts}.

Lemma each_char_all (value : str) (message : string) :
  CenterRequestDto.each_char value message =
  if forallb CenterRequestDto.name_char value
  then Accept tt else Reject (ValueError message).
Proof.
  induction value as [|c value IH]; simpl; [reflexivity | ].
  destruct (CenterRequestDto.name_char c); simpl; [exact IH | reflexivity].
Qed.

(** X15: CenterRequestDto.validate_name looks at the characters before it
    looks at the length. A name with a character outside letters, Hangul
    syllables and digits gets the character error whatever its length; a
    name of allowed characters gets the length error when it has fewer
    than 2 or more than 50 characters, so the empty name does; otherwise
    the name is returned as it is. *)
Theorem validate_name_checks_characters_first (value : str) :
  (forallb CenterRequestDto.name_char value = false ->
   CenterRequestDto.validate_name value
   = Reject (ValueError "암장명은 한글, 영문, 숫자로만 입력 해주세요.")) /\
  (forallb CenterRequestDto.name_char value = true ->
   (len value < 2 \/ len value > 50)%Z ->
   CenterRequestDto.validate_name value
   = Reject (ValueError "암장명은 2자 이상 50자 이하로 입력 해주세요.")) /\
  (forallb CenterRequestDto.name_char value = true ->
   (2 <= len value <= 50)%Z ->
   CenterRequestDto.validate_name value = Accept value) /\
  CenterRequestDto.validate_name []
   = Reject (ValueError "암장명은 2자 이상 50자 이하로 입력 해주세요.").
Proof.
  unfold CenterRequestDto.validate_name. rewrite each_char_all.
  repeat split.
  - intros ->. reflexivity.
  - intros -> Hlen.
    destruct (len value <? 2)%Z eqn:H1; destruct (len value >? 50)%Z eqn:H2;
      try reflexivity.
    rewrite Z.gtb_ltb in H2. rewrite Z.ltb_ge in H1, H2. lia.
  - intros -> Hlen.
    destruct (len value <? 2)%Z eqn:H1; destruct (len value >? 50)%Z eqn:H2;
      rewrite Z.gtb_ltb in H2; rewrite ?Z.ltb_lt, ?Z.ltb_ge in H1, H2;
      simpl; first [reflexivity | lia].
Qed.

(** X16: validate_instagram_name lets a missing name through as None and
    returns an accepted name unchanged; a name is accepted exactly when
    all its characters are letters, Hangul syllables or digits and it has
    3 to 30 characters. *)
Theorem validate_instagram_name_keeps_value :
  CenterRequestDto.validate_instagram_name None = Accept None /\
  (forall v r,
     CenterRequestDto.validate_instagram_name (Some v) = Accept r ->
     r = Some v /\ forallb CenterRequestDto.name_char v = true /\
     (3 <= len v <= 30)%Z) /\
  (forall v,
     forallb CenterRequestDto.name_char v = true -> (3 <= len v <= 30)%Z ->
     CenterRequestDto.validate_instagram_name (Some v) = Accept (Some v)).
Proof.
  unfold CenterRequestDto.validate_instagram_name.
  split; [reflexivity | split]; intros v; rewrite each_char_all.
  - intros r. destruct (forallb CenterRequestDto.name_char v); [ | discriminate].
    destruct (len v <? 3)%Z eqn:H1; destruct (len v >? 30)%Z eqn:H2;
      simpl; try discriminate.
    rewrite Z.gtb_ltb in H2. rewrite Z.ltb_ge in H1, H2.
    intros H. inversion H. repeat split; auto; lia.
  - intros -> Hlen.
    destruct (len v <? 3)%Z eqn:H1; destruct (len v >? 30)%Z eqn:H2;
      rewrite Z.gtb_ltb in H2; rewrite ?Z.ltb_lt, ?Z.ltb_ge in H1, H2;
      simpl; first [reflexivity | lia].
Qed.

(** X17: a hold is built exactly when its difficulty and its name both
    have 2 to 10 characters, and then it is the input; in particular a
    difficulty or a name of a single character is refused. A wall name is
    accepted exactly when it has 2 to 20 characters. *)
Theorem hold_and_wall_name_bounds :
  (forall raw m,
     CenterHoldDto.validate raw = Parsed m <->
     m = raw /\
     (2 <= len (CenterHoldDto.difficulty raw) <= 10)%Z /\
     (2 <= len (CenterHoldDto.name raw) <= 10)%Z) /\
  (forall raw,
     (length (CenterHoldDto.difficulty raw) = 1%nat \/
      length (CenterHoldDto.name raw) = 1%nat) ->
     exists errors,
       CenterHoldDto.validate raw = ValidationError errors /\ errors <> []) /\
  (forall value,
     CenterWallDto.validate_name value = Accept value <->
     (2 <= len value <= 20)%Z).
Proof.
  split; [ | split].
  - intros [d n] m.
    unfold CenterHoldDto.validate, CenterHoldDto.validate_difficulty,
           CenterHoldDto.validate_name.
    cbn [CenterHoldDto.difficulty CenterHoldDto.name].
    destruct (len d <? 2)%Z eqn:H1; destruct (len d >? 10)%Z eqn:H2;
    destruct (len n <? 2)%Z eqn:H3; destruct (len n >? 10)%Z eqn:H4;
      rewrite Z.gtb_ltb in H2, H4;
      rewrite ?Z.ltb_lt, ?Z.ltb_ge in H1, H2, H3, H4; simpl;
      (split;
       [ intros H; first [discriminate | inversion H; repeat split; lia]
       | intros (-> & Hd & Hn); first [reflexivity | exfalso; lia] ]).
  - intros [d n].
    unfold CenterHoldDto.validate, CenterHoldDto.validate_difficulty,
           CenterHoldDto.validate_name, len.
    cbn [CenterHoldDto.difficulty CenterHoldDto.name].
    intros Hone.
    destruct (Z.of_nat (length d) <? 2)%Z eqn:H1;
    destruct (Z.of_nat (length d) >? 10)%Z eqn:H2;
    destruct (Z.of_nat (length n) <? 2)%Z eqn:H3;
    destruct (Z.of_nat (length n) >? 10)%Z eqn:H4;
      rewrite Z.gtb_ltb in H2, H4;
      rewrite ?Z.ltb_lt, ?Z.ltb_ge in H1, H2, H3, H4; simpl;
      first [ eexists; split; [reflexivity | discriminate] | exfalso; lia ].
  - intros value. unfold CenterWallDto.validate_name.
    destruct (len value <? 2)%Z eqn:H1; destruct (len value >? 20)%Z eqn:H2;
      rewrite Z.gtb_ltb in H2; rewrite ?Z.ltb_lt, ?Z.ltb_ge in H1, H2; simpl;
      (split; [ intros H; first [discriminate | lia]
              | intros H; first [reflexivity | exfalso; lia] ]).
Qed.

End NameProperties.

(* ===================================================================== *)
(** * The further properties on the sample data *)
(* ===================================================================== *)

Section MoreExamples.

Import Schema Error ReviewModel PyDate Run Api Props MoreProps.
Import Sample MoreSample.

Lemma update_review_answer_success_example :
  (center_of (db world) "center-1" = Some gym /\
   is_owner gym (Auth.id owner) = true /\
   review_of (db world) "center-1" "review-2" = Some closed_review /\
   answer_of (db world) "review-2" = Some old_answer) /\
  exists w',
    ReviewService.update_review_answer owner revised "center-1" "review-2" world
      = (Return {| resp_content := "thank you"; resp_review_id := "review-2" |}, w') /\
    answer_of (db w') "review-2"
      = Some {| content := "thank you"; review := closed_review |}.
Proof.
  split; [repeat split; reflexivity | ].
  destruct (update_review_answer_success owner revised "center-1" "review-2"
              world gym closed_review old_answer
              eq_refl eq_refl eq_refl eq_refl)
    as (w' & Hrun & _ & _ & _ & Hanswer & _).
  exists w'. split; [exact Hrun | exact Hanswer].
Defined.

Lemma delete_review_answer_success_example :
  (center_of (db world) "center-1" = Some gym /\
   is_owner gym (Auth.id owner) = true /\
   review_of (db world) "center-1" "review-2" = Some closed_review /\
   answer_of (db world) "review-2" = Some old_answer) /\
  exists w',
    ReviewService.delete_review_answer owner "center-1" "review-2" world
      = (Return tt, w') /\
    S (length (answers (db w'))) = length (answers (db world)).
Proof.
  split; [repeat split; reflexivity | ].
  destruct (delete_review_answer_success owner "center-1" "review-2"
              world gym closed_review old_answer
              eq_refl eq_refl eq_refl eq_refl)
    as (w' & Hrun & _ & _ & Hlen & _).
  exists w'. split; [exact Hrun | exact Hlen].
Defined.

Lemma create_then_delete_restores_example :
  let run := ReviewService.create_review_answer
               owner new_answer "center-1" "review-1" world in
  run = (Return {| resp_content := "new answer"; resp_review_id := "review-1" |},
         snd run) /\
  exists w2,
    ReviewService.delete_review_answer owner "center-1" "review-1" (snd run)
      = (Return tt, w2) /\
    db w2 = db world.
Proof.
  intros run. split; [reflexivity | ].
  apply (create_then_delete_restores owner new_answer "center-1" "review-1"
           world (snd run) _ eq_refl).
Defined.

Lemma create_twice_refused_example :
  let run := ReviewService.create_review_answer
               owner new_answer "center-1" "review-1" world in
  run = (Return {| resp_content := "new answer"; resp_review_id := "review-1" |},
         snd run) /\
  exists w2,
    ReviewService.create_review_answer owner revised "center-1" "review-1" (snd run)
      = (Raise (NotFoundException ROW_ALREADY_EXIST "이미 작성된 답변이 존재합니다."), w2) /\
    db w2 = db (snd run).
Proof.
  intros run. split; [reflexivity | ].
  apply (create_twice_refused owner new_answer revised "center-1" "review-1"
           world (snd run) _ eq_refl).
Defined.

Lemma delete_twice_refused_example :
  let run := ReviewService.delete_review_answer
               owner "center-1" "review-2" world in
  (one_answer_per_review (db world) /\ run = (Return tt, snd run)) /\
  exists w2,
    ReviewService.delete_review_answer owner "center-1" "review-2" (snd run)
      = (Raise (NotFoundException DATA_DOES_NOT_EXIST
                  "해당 리뷰에 답변이 존재하지 않습니다."), w2) /\
    db w2 = db (snd run).
Proof.
  intros run.
  assert (Hinv : one_answer_per_review (db world)).
  { intros rid. unfold answers_for. simpl.
    destruct (answer_of_review rid old_answer); simpl; lia. }
  split; [split; [exact Hinv | reflexivity] | ].
  apply (delete_twice_refused owner "center-1" "review-2" world (snd run)
           Hinv eq_refl).
Defined.

Lemma delete_then_create_succeeds_example :
  let run := ReviewService.delete_review_answer
               owner "center-1" "review-2" world in
  (one_answer_per_review (db world) /\ run = (Return tt, snd run)) /\
  exists w2,
    ReviewService.create_review_answer owner revised "center-1" "review-2" (snd run)
      = (Return {| resp_content := "thank you"; resp_review_id := "review-2" |}, w2) /\
    answers_for (db w2) "review-2" = 1%nat /\
    one_answer_per_review (db w2).
Proof.
  intros run.
  assert (Hinv : one_answer_per_review (db world)).
  { intros rid. unfold answers_for. simpl.
    destruct (answer_of_review rid old_answer); simpl; lia. }
  split; [split; [exact Hinv | reflexivity] | ].
  apply (delete_then_create_succeeds owner revised "center-1" "review-2"
           world (snd run) Hinv eq_refl).
Defined.

Lemma update_twice_last_wins_example :
  let run := ReviewService.update_review_answer
               owner new_answer "center-1" "review-2" world in
  run = (Return {| resp_content := "new answer"; resp_review_id := "review-2" |},
         snd run) /\
  exists w2 w2',
    ReviewService.update_review_answer owner revised "center-1" "review-2" (snd run)
      = (Return {| resp_content := "thank you"; resp_review_id := "review-2" |}, w2) /\
    ReviewService.update_review_answer owner revised "center-1" "review-2" world
      = (Return {| resp_content := "thank you"; resp_review_id := "review-2" |}, w2') /\
    db w2 = db w2'.
Proof.
  intros run. split; [reflexivity | ].
  apply (update_twice_last_wins owner new_answer revised "center-1" "review-2"
           world (snd run) _ eq_refl).
Defined.

Lemma queries_never_write_example :
  let req := Find_reviews_summary_by_center owner "center-1" in
  let run := call (RP := whole_list) req world in
  (review_id_of req = None /\ run = (fst run, snd run)) /\
  db (snd run) = db world /\ read_only (added world (snd run)) = true.
Proof.
  intros req run. split; [split; reflexivity | ].
  apply (queries_never_write (RP := whole_list) req world (snd run) (fst run)
           eq_refl eq_refl).
Defined.


Lemma review_of_another_center_is_not_found_example :
  let req := Create_review_answer owner new_answer "center-1" "review-9" in
  (review_id_of req = Some "review-9" /\
   center_of (db world2) (center_id_of req) = Some gym /\
   is_owner gym (Auth.id (subject_of req)) = true /\
   (forall r, In r (reviews (db world2)) -> review_id r = "review-9" ->
              review_center_id r <> center_id_of req)) /\
  exists message w',
    call (RP := whole_list) req world2
      = (Raise (NotFoundException DATA_DOES_NOT_EXIST message), w') /\
    db w' = db world2 /\
    read_only (added world2 w') = true.
Proof.
  intros req.
  assert (Helse : forall r, In r (reviews (db world2)) -> review_id r = "review-9" ->
                            review_center_id r <> center_id_of req).
  { simpl. intros r [<- | [<- | [<- | []]]] Hid; simpl in *; discriminate. }
  split; [repeat split; try reflexivity; exact Helse | ].
  apply (review_of_another_center_is_not_found (RP := whole_list)
           req world2 gym "review-9" eq_refl eq_refl eq_refl Helse).
Defined.

Lemma review_summary_totals_example :
  (center_of (db world) "center-1" = Some gym /\
   is_owner gym (Auth.id owner) = true) /\
  exists dto w',
    ReviewService.find_reviews_summary_by_center owner "center-1" world
      = (Return dto, w') /\
    (Collections.get Bool.eqb (review_by_answer dto) true
     + Collections.get Bool.eqb (review_by_answer dto) false = 2)%nat /\
    list_sum (map count (review_count_by_tag dto)) = 3%nat.
Proof.
  split; [split; reflexivity | ].
  destruct (review_summary_totals owner "center-1" world gym eq_refl eq_refl)
    as (dto & w' & Hrun & Hsum & Htags & _).
  exists dto, w'. repeat split; assumption.
Defined.

Lemma review_summary_tag_order_example :
  (center_of (db world) "center-1" = Some gym /\
   is_owner gym (Auth.id owner) = true) /\
  exists dto w',
    ReviewService.find_reviews_summary_by_center owner "center-1" world
      = (Return dto, w') /\
    map tag_word (review_count_by_tag dto) = ["kind"; "clean"].
Proof.
  split; [split; reflexivity | ].
  apply (review_summary_tag_order owner "center-1" world gym eq_refl eq_refl).
Defined.

Lemma time_validators_exact_on_plain_text_example :
  ((forall c, In c (PyStr.py "09:30") ->
              Re.isdecimal (UnicodeDb := ascii_digits) c = true ->
              ModelProps.ascii_digit c = true) /\
   last (PyStr.py "09:30") 0%N <> 10%N) /\
  (CenterModel.validate_start_time (U := ascii_digits) (PyStr.py "09:30")
     = CenterModel.Accept (PyStr.py "09:30") <->
   ModelProps.is_hh_mm (PyStr.py "09:30") = true).
Proof.
  assert (Hascii : forall c, In c (PyStr.py "09:30") ->
                             Re.isdecimal (UnicodeDb := ascii_digits) c = true ->
                             ModelProps.ascii_digit c = true)
    by (intros c _ H; exact H).
  assert (Hlast : last (PyStr.py "09:30") 0%N <> 10%N)
    by (vm_compute; discriminate).
  split; [split; assumption | ].
  apply (proj1 (time_validators_exact_on_plain_text (U := ascii_digits)
                  (PyStr.py "09:30") Hascii Hlast)).
Defined.

Lemma validate_tel_accepts_example :
  tel_shape (U := ascii_digits)
    (PyStr.py "10") (PyStr.py "1234") (PyStr.py "5678") = true /\
  CenterRequestDto.validate_tel (U := ascii_digits) (PyStr.py "010-1234-5678")
    = CenterModel.Accept (PyStr.py "010-1234-5678").
Proof.
  split; [reflexivity | ].
  apply (proj1 (validate_tel_accepts (U := ascii_digits)
                  (PyStr.py "010-1234-5678"))).
  exists (PyStr.py "10"), (PyStr.py "1234"), (PyStr.py "5678").
  split; [reflexivity | left; reflexivity].
Defined.

Lemma validate_name_checks_characters_first_example :
  forallb (CenterRequestDto.name_char (C := hangul)) (PyStr.py "!") = false /\
  CenterRequestDto.validate_name (C := hangul) (PyStr.py "!")
  = CenterModel.Reject
      (CenterModel.ValueError "암장명은 한글, 영문, 숫자로만 입력 해주세요.").
Proof.
  split; [reflexivity | ].
  apply (proj1 (validate_name_checks_characters_first (C := hangul)
                  (PyStr.py "!")) eq_refl).
Defined.

Lemma validate_instagram_name_keeps_value_example :
  (forallb (CenterRequestDto.name_char (C := hangul)) (PyStr.py "claon") = true /\
   (3 <= PyStr.len (PyStr.py "claon") <= 30)%Z) /\
  CenterRequestDto.validate_instagram_name (C := hangul) (Some (PyStr.py "claon"))
  = CenterModel.Accept (Some (PyStr.py "claon")).
Proof.
  split; [split; [reflexivity | vm_compute; split; discriminate] | ].
  apply (proj2 (proj2 (validate_instagram_name_keeps_value (C := hangul)))
           (PyStr.py "claon") eq_refl).
  vm_compute. split; discriminate.
Defined.

Lemma hold_and_wall_name_bounds_example :
  length (CenterHoldDto.difficulty
            {| CenterHoldDto.difficulty := PyStr.py "V";
               CenterHoldDto.name := PyStr.py "red" |}) = 1%nat /\
  exists errors,
    CenterHoldDto.validate
      {| CenterHoldDto.difficulty := PyStr.py "V";
         CenterHoldDto.name := PyStr.py "red" |}
    = CenterModel.ValidationError errors /\ errors <> [].
Proof.
  split; [reflexivity | ].
  apply (proj1 (proj2 hold_and_wall_name_bounds)
           {| CenterHoldDto.difficulty := PyStr.py "V";
              CenterHoldDto.name := PyStr.py "red" |}).
  left. reflexivity.
Defined.

End MoreExamples.
